(** * AstMultiDialer: a shallow embedding of [astmultidialer.c]

    The program drives up to nine virtual telephone lines through the
    Asterisk Manager Interface (AMI).  This development embeds the command
    interpreter ([run_command]), the channel resolver ([find_channel]),
    the bulk hangup ([hangup_all]), the two asynchronous handlers
    ([restore_term], [simple_disconnect_callback]) and the session loop
    ([multidialer]) as functions over an explicit session state, and
    proves properties of them.

    Conventions.
    - A C string is a Rocq [string] holding the characters before the
      terminating NUL; the end of the Rocq string stands for the NUL.
    - The C type [int] is [Z]; conversions that can wrap are written out.
    - The global array [lines] is a [list line]; an access outside the
      array is undefined behaviour in C and is modelled as the fault
      [OutOfBounds].
    - The AMI library (CAMI) is an external collaborator: it is an oracle
      [ami] that answers each request, given the history of the session.
    - Everything the program does to the outside world (AMI requests,
      text written, sleeps, terminal mode changes) is appended to a log. *)

From Stdlib Require Import ZArith Ascii String List Lia Bool DecimalString DecimalZ.
From stdpp Require Import base list.
Import ListNotations.

Local Open Scope string_scope.
Local Open Scope Z_scope.

(** ** The parts of the C library the program uses *)

Module CLib.

Definition code (c : ascii) : Z := Z.of_N (N_of_ascii c).

Definition NUL : ascii := "000"%char.
Definition LF : ascii := "010"%char.

(** [isdigit], [isspace] and [tolower] in the "C" locale. *)
Definition isdigit (c : ascii) : bool := (48 <=? code c) && (code c <=? 57).

Definition isspace (c : ascii) : bool :=
  (code c =? 32) || ((9 <=? code c) && (code c <=? 13)).

Definition tolower (c : ascii) : ascii :=
  if (65 <=? code c) && (code c <=? 90)
  then ascii_of_N (N_of_ascii c + 32) else c.

(** [*s]: the first character, NUL at the end of the string. *)
Definition deref (s : string) : ascii :=
  match s with
  | String c _ => c
  | EmptyString => NUL
  end.

(** [s + 1] for a pointer into a string. *)
Definition advance (s : string) : string :=
  match s with
  | String _ s' => s'
  | EmptyString => EmptyString
  end.

(** The macro [ltrim]: [while (isspace( *s )) s++]. *)
Fixpoint ltrim (s : string) : string :=
  match s with
  | String c s' => if isspace c then ltrim s' else s
  | EmptyString => EmptyString
  end.

(** [tmp = strchr(s, c); if (tmp) *tmp = 0]: cut [s] at the first [c]. *)
Fixpoint truncate_at (c : ascii) (s : string) : string :=
  match s with
  | String d s' => if Ascii.eqb d c then EmptyString else String d (truncate_at c s')
  | EmptyString => EmptyString
  end.

(** The value of the leading decimal digits of [s]. *)
Fixpoint digits_value (acc : Z) (s : string) : Z :=
  match s with
  | String c s' =>
      if isdigit c then digits_value (10 * acc + (code c - 48)) s' else acc
  | EmptyString => acc
  end.

Definition LONG_MAX : Z := 2 ^ 63 - 1.
Definition LONG_MIN : Z := - 2 ^ 63.

(** [strtol(s, NULL, 10)]: white space, an optional sign, digits; the
    result saturates at the bounds of [long]. *)
Definition strtol (s : string) : Z :=
  match ltrim s with
  | String "-" s' => Z.max LONG_MIN (- digits_value 0 s')
  | String "+" s' => Z.min LONG_MAX (digits_value 0 s')
  | s' => Z.min LONG_MAX (digits_value 0 s')
  end.

(** Conversion to a 32-bit [int] and to [unsigned int]. *)
Definition to_int (z : Z) : Z := (z + 2 ^ 31) mod 2 ^ 32 - 2 ^ 31.
Definition to_uint (z : Z) : Z := z mod 2 ^ 32.

(** [atoi(s)] is [(int) strtol(s, NULL, 10)].  ISO C leaves the result
    undefined when the value does not fit; the model follows glibc. *)
Definition atoi (s : string) : Z := to_int (strtol s).

(** [printf("%d", n)]. *)
Definition fmt_d (n : Z) : string := NilZero.string_of_int (Z.to_int n).

(** [printf("%c", c)]. *)
Definition fmt_c (c : ascii) : string := String c EmptyString.

(** [snprintf(buf, size, ...)]: at most [size - 1] characters are kept. *)
Definition snprintf (size : nat) (text : string) : string :=
  substring 0 (size - 1) text.

(** [strncpy(dst, src, n)] into a zero-initialised buffer of more than
    [n] bytes: the string read back is the first [n] characters. *)
Definition strncpy (src : string) (n : nat) : string := substring 0 n src.

(** [strncmp(a, b, n) == 0]: the first [n] characters agree, or both
    strings end before. *)
Fixpoint strncmp_eq (a b : string) (n : nat) {struct n} : bool :=
  match n with
  | O => true
  | S n' =>
      match a, b with
      | EmptyString, EmptyString => true
      | String x a', String y b' => Ascii.eqb x y && strncmp_eq a' b' n'
      | _, _ => false
      end
  end.

(** [strncasecmp(a, b, n) == 0]. *)
Fixpoint strncasecmp_eq (a b : string) (n : nat) {struct n} : bool :=
  match n with
  | O => true
  | S n' =>
      match a, b with
      | EmptyString, EmptyString => true
      | String x a', String y b' =>
          Ascii.eqb (tolower x) (tolower y) && strncasecmp_eq a' b' n'
      | _, _ => false
      end
  end.

(** [strcasecmp(a, b) == 0]. *)
Fixpoint strcasecmp_eq (a b : string) : bool :=
  match a, b with
  | EmptyString, EmptyString => true
  | String x a', String y b' =>
      Ascii.eqb (tolower x) (tolower y) && strcasecmp_eq a' b'
  | _, _ => false
  end.

(** The characters of a string, in order. *)
Fixpoint chars (s : string) : list ascii :=
  match s with
  | String c s' => c :: chars s'
  | EmptyString => []
  end.

(** A character buffer read as a C string: up to the first NUL. *)
Fixpoint c_str (buf : list ascii) : string :=
  match buf with
  | c :: buf' => if Ascii.eqb c NUL then EmptyString else String c (c_str buf')
  | [] => EmptyString
  end.

End CLib.
Import CLib.

(** ** The AMI client, at its boundary *)

(** The actions the program sends with [ami_action] (and
    [ami_action_show_channels]), with the arguments it formats into them. *)
Inductive request :=
| Originate (chan context exten priority : string)
| Hangup (chan : string) (cause : Z)
| SendFlash (chan : string)
| PlayDTMF (chan : string) (digit : ascii)
| CoreShowChannels.

(** An event of a response is a list of key/value pairs. *)
Definition ami_event := list (string * string).

(** [struct ami_response]: [success], and [events] with [size] entries. *)
Record ami_response := {
  success : bool;
  events : list ami_event
}.

(** [ami_keyvalue(event, key)]: the value of the first pair with that key,
    [None] for the NULL pointer returned when there is none. *)
Fixpoint ami_keyvalue (e : ami_event) (key : string) : option string :=
  match e with
  | (k, v) :: e' => if String.eqb k key then Some v else ami_keyvalue e' key
  | [] => None
  end.

(** ** Configurable settings *)

Definition PEER_PREFIX := "autotest".
Definition PLAR_CODE := "01".
Definition PLAR_DIALPLAN_CONTEXT := "idle".
Definition PLAR_DIALPLAN_EXTEN := "9999".
Definition MAX_LINES : Z := 9.
Definition EXIT_FAILURE : Z := 1.

(** ** Data model *)

(** [struct line]. *)
Record line := {
  devicename : string;
  dialstr : string;
  dialexten : string;
  channel : string;
  offhook : bool
}.

Inductive term_settings := origterm | ttyterm.

(** What the program does to the outside world. *)
Inductive event :=
| EvAction (req : request) (resp : option ami_response)
| EvStderr (text : string)
| EvStdout (text : string)
| EvSleep (seconds : Z)
| EvUsleep (usecs : Z)
| EvSignal
| EvTcsetattr (t : term_settings)
| EvAmiDisconnect.

(** The globals of the program, and the log of its effects. *)
Record session := {
  lines : list line;
  log : list event
}.

(** Static storage is zero-initialised: empty strings, on hook. *)
Definition zero_line : line :=
  {| devicename := EmptyString; dialstr := EmptyString; dialexten := EmptyString;
     channel := EmptyString; offhook := false |}.

Definition initial_session : session :=
  {| lines := replicate (Z.to_nat (MAX_LINES + 1)) zero_line; log := [] |}.

Inductive fault :=
| OutOfBounds (index : Z)   (* lines[index] outside the array *)
| NullDereference.          (* a NULL string handed to strncmp *)

Inductive outcome (A : Type) :=
| Done (a : A) (s : session)
| Crash (f : fault).
Arguments Done {A} a s.
Arguments Crash {A} f.

(** A state and error monad over the session. *)
Definition M (A : Type) := session -> outcome A.

Definition ret {A} (a : A) : M A := fun s => Done a s.

Definition bind {A B} (c : M A) (k : A -> M B) : M B :=
  fun s => match c s with
           | Done a s' => k a s'
           | Crash f => Crash f
           end.

Notation "x <- c ;; k" := (bind c (fun x => k))
  (at level 100, c at next level, right associativity).
Notation "c ;; k" := (bind c (fun _ => k))
  (at level 100, right associativity).

Definition emit (e : event) : M unit :=
  fun s => Done tt {| lines := lines s; log := log s ++ [e] |}.

Definition eprint (text : string) : M unit := emit (EvStderr text).
Definition print (text : string) : M unit := emit (EvStdout text).

(** Reading and writing [lines[n]]. *)
Definition get_line (n : Z) : M line :=
  fun s => if n <? 0 then Crash (OutOfBounds n)
           else match lines s !! Z.to_nat n with
                | Some l => Done l s
                | None => Crash (OutOfBounds n)
                end.

Definition set_line (n : Z) (f : line -> line) : M unit :=
  l <- get_line n ;;
  fun s => Done tt {| lines := <[Z.to_nat n := f l]> (lines s); log := log s |}.

Definition with_devicename (v : string) (l : line) : line :=
  {| devicename := v; dialstr := dialstr l; dialexten := dialexten l;
     channel := channel l; offhook := offhook l |}.
Definition with_dialstr (v : string) (l : line) : line :=
  {| devicename := devicename l; dialstr := v; dialexten := dialexten l;
     channel := channel l; offhook := offhook l |}.
Definition with_dialexten (v : string) (l : line) : line :=
  {| devicename := devicename l; dialstr := dialstr l; dialexten := v;
     channel := channel l; offhook := offhook l |}.
Definition with_channel (v : string) (l : line) : line :=
  {| devicename := devicename l; dialstr := dialstr l; dialexten := dialexten l;
     channel := v; offhook := offhook l |}.
Definition with_offhook (v : bool) (l : line) : line :=
  {| devicename := devicename l; dialstr := dialstr l; dialexten := dialexten l;
     channel := channel l; offhook := v |}.

Fixpoint for_each (indices : list Z) (body : Z -> M unit) : M unit :=
  match indices with
  | [] => ret tt
  | i :: rest => body i ;; for_each rest body
  end.

Definition nl : string := String LF EmptyString.

(** ** The program *)

(** Standard input as [poll] and [read] deliver it to the session loop. *)
Inductive input :=
| PollInterrupted          (* poll < 0 with errno EINTR *)
| PollFailed               (* poll < 0 otherwise *)
| PollNothing              (* poll returned without revents *)
| ReadNothing              (* read returned less than one byte *)
| ReadChar (c : ascii).

Definition help_text : string :=
  String "013" "Usage: [<line #>] command [arguments]" ++ nl ++
  "-- Line Actions (lines 1-9) --" ++ nl ++
  "o     - Go off hook" ++ nl ++
  "dt    - Dial digits using DTMF" ++ nl ++
  "dp    - Dial digits using pulse dialing (not supported currently)" ++ nl ++
  "a     - Answer incoming call" ++ nl ++
  "f     - Hook flash" ++ nl ++
  "h     - Go on hook" ++ nl ++
  "p     - Play audio file" ++ nl ++
  "-- General Actions --" ++ nl ++
  "k     - hang up all active lines" ++ nl ++
  "s     - sleep for N seconds" ++ nl ++
  "ms    - sleep for N milliseconds" ++ nl ++
  "q     - Quit" ++ nl ++
  "-- Examples --" ++ nl ++
  "1o             ; originate on line 1" ++ nl ++
  "2 o            ; originate on line 2 (whitespace is ignored)" ++ nl ++
  "1dt47          ; dial DTMF 47 on line 1" ++ nl ++
  "3a             ; answer incoming call on line 3" ++ nl ++
  "1p custom/beep ; Play audio file on line" ++ nl ++
  "ms750          ; sleep for 750ms" ++ nl.

Section Program.

(** The AMI server's answer to a request, given what happened so far;
    [None] is the NULL response. *)
Variable ami : list event -> request -> option ami_response.

(** [ami_action(...)] and [ami_action_show_channels()]. *)
Definition ami_action (req : request) : M (option ami_response) :=
  fun s => let resp := ami (log s) req in
           Done resp {| lines := lines s; log := log s ++ [EvAction req resp] |}.

(** [resp && resp->success]. *)
Definition succeeded (resp : option ami_response) : bool :=
  match resp with
  | Some r => success r
  | None => false
  end.

(** The body of the loop of [hangup_all]. *)
Definition hangup_line (i : Z) : M unit :=
  l <- get_line i ;;
  if offhook l then
    resp <- ami_action (Hangup (channel l) 16) ;;
    if succeeded resp then
      eprint ("Hung up line " ++ fmt_d i ++ nl) ;;
      set_line i (with_offhook false)
    else ret tt
  else ret tt.

(** [for (i = 1; i <= MAX_LINES; i++)]. *)
Definition hangup_all : M unit :=
  for_each (seqZ 1 MAX_LINES) hangup_line.

(** The signal handler for SIGINT; the value is the exit status. *)
Definition restore_term : M Z :=
  emit (EvTcsetattr origterm) ;;
  eprint nl ;;
  hangup_all ;;
  emit EvAmiDisconnect ;;
  eprint (nl ++ "AstMultiDialer exiting..." ++ nl) ;;
  ret EXIT_FAILURE.

(** The callback CAMI runs on a forced disconnect; the value is the
    exit status. *)
Definition simple_disconnect_callback : M Z :=
  eprint (nl ++ "AMI was forcibly disconnected..." ++ nl) ;;
  emit (EvTcsetattr origterm) ;;
  ret EXIT_FAILURE.

(** The events [events[1]] to [events[size - 2]] of a response. *)
Definition inner_events (r : ami_response) : list ami_event :=
  take (length (events r) - 2)%nat (drop 1 (events r)).

(** The loop of [find_channel] over those events: the first channel
    that starts with [prefix], if any. *)
Fixpoint scan_channels (prefix : string) (evs : list ami_event) : M (option string) :=
  match evs with
  | [] => ret None
  | e :: evs' =>
      match ami_keyvalue e "Channel" with
      | None => fun _ => Crash NullDereference
      | Some chan =>
          if strncmp_eq chan prefix (String.length prefix)
          then ret (Some chan)
          else scan_channels prefix evs'
      end
  end.

Definition find_channel (n : Z) : M Z :=
  l <- get_line n ;;
  let prefix := devicename l in
  resp <- ami_action CoreShowChannels ;;
  match resp with
  | None => eprint ("Failed to show channels" ++ nl) ;; ret (-1)
  | Some r =>
      found <- scan_channels prefix (inner_events r) ;;
      match found with
      | Some chan =>
          set_line n (with_channel (strncpy chan 127)) ;;
          ret 0
      | None =>
          l <- get_line n ;;
          eprint ("Failed to find channel for " ++ devicename l ++ nl) ;;
          ret (-1)
      end
  end.

(** [while ( *command ) { ami_action("PlayDTMF", ...); command++; }] *)
Fixpoint play_digits (n : Z) (command : string) : M unit :=
  match command with
  | EmptyString => ret tt
  | String c command' =>
      l <- get_line n ;;
      ami_action (PlayDTMF (channel l) c) ;;
      play_digits n command'
  end.

(** [REQUIRE_ACTIVE(); ...]: the rest runs only on an off-hook line. *)
Definition require_active (n : Z) (k : M Z) : M Z :=
  l <- get_line n ;;
  if offhook l then k
  else eprint ("Can't do this action on on-hook line" ++ nl) ;; ret 0.

(** [REQUIRE_RESP(resp); ...]. *)
Definition require_resp (resp : option ami_response) (k : M Z) : M Z :=
  match resp with
  | None => eprint ("No response" ++ nl) ;; ret 0
  | Some _ => k
  end.

(** The [switch (tolower( *command++ ))] of a line command. *)
Definition line_switch (n : Z) (command : string) : M Z :=
  let tmp := command in
  let verb := tolower (deref command) in
  let command := advance command in
  if Ascii.eqb verb "a" then
    eprint ("XXX Not implemented yet" ++ nl) ;; ret 0
  else if Ascii.eqb verb "o" then
    l <- get_line n ;;
    resp <- ami_action (Originate (dialstr l) (dialexten l) PLAR_DIALPLAN_EXTEN "1") ;;
    require_resp resp (
      (if succeeded resp then
         set_line n (with_offhook true) ;;
         res <- find_channel n ;;
         if res =? 0 then eprint ("OK" ++ nl) else ret tt
       else
         eprint ("Failed to go off hook on line " ++ fmt_d n ++ nl)) ;;
      ret 0)
  else if Ascii.eqb verb "h" then
    require_active n (
      l <- get_line n ;;
      resp <- ami_action (Hangup (channel l) 16) ;;
      require_resp resp (
        (if succeeded resp then
           set_line n (with_offhook false) ;;
           eprint ("OK" ++ nl)
         else
           eprint ("Failed to go on hook on line " ++ fmt_d n ++ nl)) ;;
        ret 0))
  else if Ascii.eqb verb "f" then
    require_active n (
      l <- get_line n ;;
      resp <- ami_action (SendFlash (channel l)) ;;
      require_resp resp (
        (if succeeded resp then eprint ("OK" ++ nl)
         else eprint ("Failed to send flash on line " ++ fmt_d n ++ nl)) ;;
        ret 0))
  else if Ascii.eqb verb "d" then
    require_active n (
      let tmp := command in
      let command := advance command in
      (if Ascii.eqb (deref tmp) "t" then play_digits n command
       else if Ascii.eqb (deref tmp) "p" then
         eprint ("Dial pulse not yet supported" ++ nl)
       else
         eprint ("Invalid dial type " ++ fmt_c (deref tmp) ++ nl)) ;;
      ret 0)
  else
    eprint ("Unknown line command '" ++ fmt_c (deref tmp) ++ "'" ++ nl) ;; ret 0.

(** The branch [if (n)] of [run_command]: [command] is what follows the
    line number and the white space after it. *)
Definition line_command (n : Z) (command : string) : M Z :=
  set_line n (with_devicename (snprintf 64 ("PJSIP/" ++ PEER_PREFIX ++ fmt_d n))) ;;
  set_line n (with_dialstr (snprintf 84 ("PJSIP/" ++ PLAR_CODE ++ "@" ++ PEER_PREFIX ++ fmt_d n))) ;;
  set_line n (with_dialexten (snprintf 64 PLAR_DIALPLAN_CONTEXT)) ;;
  line_switch n command.

(** The branch [else] of [run_command]: a global command.  [sleep] and
    [usleep] take an unsigned argument; the product [sleeptime * 1000]
    is computed in [int], and its overflow is written as a wrap. *)
Definition global_command (command : string) : M Z :=
  if Ascii.eqb (deref command) "s" then
    let sleeptime := atoi (ltrim (advance command)) in
    emit (EvSleep (to_uint sleeptime)) ;; ret 0
  else if strncasecmp_eq command "ms" 2 then
    let sleeptime := atoi (ltrim (advance (advance command))) in
    emit (EvUsleep (to_uint (to_int (sleeptime * 1000)))) ;; ret 0
  else if strcasecmp_eq command "q" then
    ret (-1)
  else if strcasecmp_eq command "k" then
    hangup_all ;; ret 0
  else
    eprint ("Unknown global command '" ++ command ++ "'" ++ nl) ;; ret 0.

Definition run_command (command : string) : M Z :=
  let command := truncate_at ";" command in
  if isdigit (deref command) then
    let n := atoi command in
    if n =? 0 then
      eprint ("Line number must be between 1 and 9" ++ nl) ;; ret 0
    else
      line_command n (ltrim (advance command))
  else
    global_command command.

(** The loop of [multidialer]; the input ends when [inp] does. *)
Fixpoint session_loop (inp : list input) (reset : bool)
    (buf : list ascii) (left : Z) : M unit :=
  st <- (if reset then eprint ">" ;; ret ([], 63) else ret (buf, left)) ;;
  let buf := fst st in
  let left := snd st in
  match inp with
  | [] => ret tt
  | PollInterrupted :: inp' => session_loop inp' false buf left
  | PollFailed :: _ => ret tt
  | PollNothing :: inp' => session_loop inp' false buf left
  | ReadNothing :: _ => ret tt
  | ReadChar c :: inp' =>
      if Ascii.eqb c LF then
        res <- run_command (c_str buf) ;;
        if res =? 0 then session_loop inp' true buf left else ret tt
      else if Ascii.eqb c "?" then
        print help_text ;;
        print nl ;;
        session_loop inp' true buf left
      else
        let buf := (buf ++ [c])%list in
        let left := left - 1 in
        if left <=? 1 then
          eprint ("Command too long" ++ nl) ;;
          session_loop inp' true buf left
        else session_loop inp' false buf left
  end.

Definition multidialer (inp : list input) : M Z :=
  emit EvSignal ;;
  emit (EvTcsetattr ttyterm) ;;
  session_loop inp true [] 0 ;;
  emit EvAmiDisconnect ;;
  emit (EvTcsetattr origterm) ;;
  ret 0.

End Program.

(** ** Vocabulary for the statements *)

(** The array [lines] has [MAX_LINES + 1] elements. *)
Definition wf (s : session) : Prop :=
  length (lines s) = Z.to_nat (MAX_LINES + 1).

(** [lines[n]] of a session, for an index inside the array. *)
Definition line_at (s : session) (n : Z) : line :=
  default zero_line (lines s !! Z.to_nat n).

Definition offhook_at (s : session) (n : Z) : bool := offhook (line_at s n).
Definition channel_at (s : session) (n : Z) : string := channel (line_at s n).

(** The session after [lines[n]] was changed by [f]. *)
Definition update_line (n : Z) (f : line -> line) (s : session) : session :=
  {| lines := <[Z.to_nat n := f (line_at s n)]> (lines s); log := log s |}.

(** The session with more events in its log. *)
Definition logged (s : session) (new : list event) : session :=
  {| lines := lines s; log := (log s ++ new)%list |}.

(** The input line that addresses line [n]: its digit, then [rest]. *)
Definition digit_char (n : Z) : ascii := ascii_of_N (Z.to_N (48 + n)).
Definition line_cmd (n : Z) (rest : string) : string := String (digit_char n) rest.

(** What [run_command] stores in the derived fields of [lines[n]]. *)
Definition device_of (n : Z) : string :=
  snprintf 64 ("PJSIP/" ++ PEER_PREFIX ++ fmt_d n).
Definition dialstr_of (n : Z) : string :=
  snprintf 84 ("PJSIP/" ++ PLAR_CODE ++ "@" ++ PEER_PREFIX ++ fmt_d n).
Definition dialexten_const : string := snprintf 64 PLAR_DIALPLAN_CONTEXT.

Definition prepare (n : Z) (s : session) : session :=
  update_line n (with_dialexten dialexten_const)
    (update_line n (with_dialstr (dialstr_of n))
       (update_line n (with_devicename (device_of n)) s)).

(** The AMI requests of a log, in order. *)
Fixpoint requests (l : list event) : list request :=
  match l with
  | EvAction req _ :: l' => req :: requests l'
  | _ :: l' => requests l'
  | [] => []
  end.

(** [chan] starts with [prefix], as [find_channel] tests it. *)
Definition has_prefix (prefix chan : string) : bool :=
  strncmp_eq chan prefix (String.length prefix).

(** The [Channel] value of an event, when it has one. *)
Definition channel_of (e : ami_event) : option string := ami_keyvalue e "Channel".

(** An event whose channel does not start with [prefix]. *)
Definition other_channel (prefix : string) (e : ami_event) : Prop :=
  exists chan, channel_of e = Some chan /\ String.prefix prefix chan = false.

(** A response to the channel query that [find_channel] can scan: either
    none, or one whose listed events all carry a channel. *)
Definition listable (resp : option ami_response) : Prop :=
  match resp with
  | Some r => Forall (fun e => is_Some (channel_of e)) (inner_events r)
  | None => True
  end.

(** The originate request [run_command] sends for line [n]. *)
Definition originate_req (n : Z) : request :=
  Originate (dialstr_of n) dialexten_const PLAR_DIALPLAN_EXTEN "1".

(** The session in which [find_channel] runs after a successful
    originate on line [n]. *)
Definition gone_offhook (n : Z) (s : session) (r : ami_response) : session :=
  update_line n (with_offhook true)
    (logged (prepare n s) [EvAction (originate_req n) (Some r)]).

(** White space only. *)
Fixpoint all_space (s : string) : bool :=
  match s with
  | String c s' => isspace c && all_space s'
  | EmptyString => true
  end.

(** ** A scripted AMI server, for the examples *)

Definition channel_event (chan : string) : ami_event :=
  [("Event", "CoreShowChannel"); ("Channel", chan)].

Definition plain_ok : ami_response := {| success := true; events := [] |}.

(** A channel list, framed by the response header and the closing event. *)
Definition channel_list (chans : list string) : ami_response :=
  {| success := true;
     events := ([("Response", "Success")] :: map channel_event chans
                ++ [[("Event", "CoreShowChannelsComplete")]])%list |}.

(** A server on which every action succeeds and which lists [chans]. *)
Definition server (chans : list string) (history : list event) (req : request)
    : option ami_response :=
  match req with
  | CoreShowChannels => Some (channel_list chans)
  | _ => Some plain_ok
  end.

Definition busy_server := server ["PJSIP/other-00000007"; "PJSIP/autotest1-00000001"].

(** The characters of a text as they arrive on standard input. *)
Definition typed (text : string) : list input := map ReadChar (chars text).

(** A line that is off hook on a channel, as [o] leaves it. *)
Definition line1_offhook : session :=
  update_line 1 (with_offhook true)
    (update_line 1 (with_channel "PJSIP/autotest1-00000001")
       (prepare 1 initial_session)).

(** ** Vocabulary for the further properties *)

(** A server that never answers. *)
Definition silent_server (history : list event) (req : request)
    : option ami_response := None.

(** A lowercase letter. *)
Definition is_lower (c : ascii) : bool := (97 <=? code c) && (code c <=? 122).

(** A server that answers every action with a failure. *)
Definition refusing_server (history : list event) (req : request)
    : option ami_response := Some {| success := false; events := [] |}.

(** What a command on line [n] can change between two sessions: the hook
    state and the channel id of line [n], and the log. *)
Definition frame (n : Z) (s s' : session) : Prop :=
  wf s' /\
  (forall j, 0 <= j -> j <> n -> line_at s' j = line_at s j) /\
  devicename (line_at s' n) = devicename (line_at s n) /\
  dialstr (line_at s' n) = dialstr (line_at s n) /\
  dialexten (line_at s' n) = dialexten (line_at s n).

(** A character that the session loop stores in its buffer: neither the
    newline nor the question mark. *)
Definition ordinary (c : ascii) : bool :=
  negb (Ascii.eqb c LF) && negb (Ascii.eqb c "?").

(** A line that can be typed as one command: at most 61 characters, all
    ordinary and none of them NUL. *)
Definition typable (cmd : string) : bool :=
  (String.length cmd <=? 61)%nat
  && forallb (fun c => ordinary c && negb (Ascii.eqb c NUL)) (chars cmd).

(** The lines of a script as standard input delivers them. *)
Definition feed (script : list string) : list input :=
  flat_map (fun cmd => (typed cmd ++ [ReadChar LF])%list) script.

(** Running the lines of a script one after the other: a prompt before
    each line and at the end of the input, until a command returns a
    value other than 0. *)
Fixpoint run_script (ami : list event -> request -> option ami_response)
    (script : list string) : M unit :=
  eprint ">" ;;
  match script with
  | [] => ret tt
  | cmd :: rest =>
      res <- run_command ami cmd ;;
      if res =? 0 then run_script ami rest else ret tt
  end.

(** * Properties *)

(** ** The registry *)

Lemma index_in_bounds (s : session) (n : Z) :
  wf s -> 0 <= n <= MAX_LINES -> (Z.to_nat n < length (lines s))%nat.
Proof. unfold wf, MAX_LINES. intros -> Hn. lia. Qed.

Lemma lookup_line_at (s : session) (n : Z) :
  wf s -> 0 <= n <= MAX_LINES -> lines s !! Z.to_nat n = Some (line_at s n).
Proof.
  intros Hwf Hn. unfold line_at.
  destruct (lookup_lt_is_Some_2 (lines s) (Z.to_nat n)) as [l Hl].
  - by apply index_in_bounds.
  - by rewrite Hl.
Qed.

Lemma get_line_ok (s : session) (n : Z) :
  wf s -> 0 <= n <= MAX_LINES -> get_line n s = Done (line_at s n) s.
Proof.
  intros Hwf Hn. unfold get_line.
  destruct (Z.ltb_spec n 0) as [Hneg|_]; [lia|].
  by rewrite lookup_line_at.
Qed.

Lemma set_line_ok (s : session) (n : Z) (f : line -> line) :
  wf s -> 0 <= n <= MAX_LINES -> set_line n f s = Done tt (update_line n f s).
Proof.
  intros Hwf Hn. unfold set_line, bind. by rewrite get_line_ok.
Qed.

Lemma get_line_out_of_bounds (s : session) (n : Z) :
  wf s -> n < 0 \/ MAX_LINES < n -> get_line n s = Crash (OutOfBounds n).
Proof.
  intros Hwf Hn. unfold get_line.
  destruct (Z.ltb_spec n 0) as [Hneg|Hpos]; [done|].
  rewrite lookup_ge_None_2; [done|].
  unfold wf, MAX_LINES in *. lia.
Qed.

Lemma wf_update_line (s : session) (n : Z) (f : line -> line) :
  wf s -> wf (update_line n f s).
Proof. unfold wf, update_line. simpl. by rewrite length_insert. Qed.

Lemma wf_logged (s : session) (new : list event) : wf s -> wf (logged s new).
Proof. done. Qed.

Lemma line_at_update_same (s : session) (n : Z) (f : line -> line) :
  wf s -> 0 <= n <= MAX_LINES -> line_at (update_line n f s) n = f (line_at s n).
Proof.
  intros Hwf Hn. unfold line_at at 1, update_line. simpl.
  rewrite list_lookup_insert_eq; [done|by apply index_in_bounds].
Qed.

Lemma line_at_update_other (s : session) (n m : Z) (f : line -> line) :
  0 <= n -> 0 <= m -> n <> m -> line_at (update_line n f s) m = line_at s m.
Proof.
  intros Hn Hm Hne. unfold line_at at 1, update_line. simpl.
  rewrite list_lookup_insert_ne; [done|lia].
Qed.

Lemma line_at_logged (s : session) (new : list event) (n : Z) :
  line_at (logged s new) n = line_at s n.
Proof. done. Qed.

Lemma logged_logged (s : session) (a b : list event) :
  logged (logged s a) b = logged s (a ++ b).
Proof. unfold logged. simpl. by rewrite app_assoc. Qed.

Lemma emit_ok (e : event) (s : session) : emit e s = Done tt (logged s [e]).
Proof. done. Qed.

Lemma wf_initial : wf initial_session.
Proof. done. Qed.

Lemma wf_prepare (n : Z) (s : session) : wf s -> wf (prepare n s).
Proof. intros Hwf. unfold prepare. by do 3 apply wf_update_line. Qed.

Lemma line_at_prepare_same (n : Z) (s : session) :
  wf s -> 0 <= n <= MAX_LINES ->
  line_at (prepare n s) n =
    {| devicename := device_of n; dialstr := dialstr_of n;
       dialexten := dialexten_const;
       channel := channel_at s n; offhook := offhook_at s n |}.
Proof.
  intros Hwf Hn. unfold prepare.
  rewrite !line_at_update_same; auto using wf_update_line.
Qed.

Lemma line_at_prepare_other (n m : Z) (s : session) :
  0 <= n -> 0 <= m -> n <> m -> line_at (prepare n s) m = line_at s m.
Proof.
  intros Hn Hm Hne. unfold prepare. by rewrite !line_at_update_other.
Qed.

Lemma hook_and_channel_prepare (n m : Z) (s : session) :
  wf s -> 0 <= n <= MAX_LINES -> 0 <= m ->
  offhook_at (prepare n s) m = offhook_at s m /\
  channel_at (prepare n s) m = channel_at s m.
Proof.
  intros Hwf Hn Hm. unfold offhook_at, channel_at.
  destruct (Z.eq_dec n m) as [<-|Hne].
  - by rewrite line_at_prepare_same.
  - rewrite line_at_prepare_other; [done|lia|done|done].
Qed.

Lemma log_prepare (n : Z) (s : session) : log (prepare n s) = log s.
Proof. done. Qed.

(** ** Parsing the line number *)

Lemma line_number_cases (n : Z) :
  1 <= n <= MAX_LINES ->
  n = 1 \/ n = 2 \/ n = 3 \/ n = 4 \/ n = 5 \/ n = 6 \/ n = 7 \/ n = 8 \/ n = 9.
Proof. unfold MAX_LINES. lia. Qed.

Ltac each_line n H :=
  destruct (line_number_cases n H) as [?|[?|[?|[?|[?|[?|[?|[?|?]]]]]]]]; subst n.

Lemma digits_value_stop (acc : Z) (s : string) :
  isdigit (deref s) = false -> digits_value acc s = acc.
Proof. destruct s as [|c s]; simpl; [done|]. by intros ->. Qed.

Lemma deref_truncate_not_digit (c : ascii) (s : string) :
  isdigit (deref s) = false -> isdigit (deref (truncate_at c s)) = false.
Proof.
  destruct s as [|d s]; simpl; [done|].
  destruct (Ascii.eqb d c); simpl; done.
Qed.

Lemma atoi_line (n : Z) (rest : string) :
  1 <= n <= MAX_LINES -> isdigit (deref rest) = false ->
  atoi (line_cmd n rest) = n.
Proof.
  intros Hn Hrest. unfold atoi, strtol, line_cmd.
  each_line n Hn; simpl; rewrite digits_value_stop by done; reflexivity.
Qed.

Lemma truncate_line_cmd (n : Z) (rest : string) :
  1 <= n <= MAX_LINES ->
  truncate_at ";" (line_cmd n rest) = line_cmd n (truncate_at ";" rest).
Proof. intros Hn. each_line n Hn; reflexivity. Qed.

Lemma isdigit_digit_char (n : Z) :
  1 <= n <= MAX_LINES -> isdigit (digit_char n) = true.
Proof. intros Hn. each_line n Hn; reflexivity. Qed.

Lemma isspace_digit_char (n : Z) :
  1 <= n <= MAX_LINES -> isspace (digit_char n) = false.
Proof. intros Hn. each_line n Hn; reflexivity. Qed.

Section Parsing.
Variable ami : list event -> request -> option ami_response.

(** A digit 1 to 9 followed by something that is not a digit selects
    that line; white space after the digit is skipped. *)
Lemma run_command_line (n : Z) (rest : string) (s : session) :
  1 <= n <= MAX_LINES -> isdigit (deref rest) = false ->
  run_command ami (line_cmd n rest) s =
  line_command ami n (ltrim (truncate_at ";" rest)) s.
Proof.
  intros Hn Hrest. unfold run_command.
  rewrite truncate_line_cmd by done.
  change (deref (line_cmd n ?r)) with (digit_char n).
  rewrite isdigit_digit_char by done.
  rewrite atoi_line by (done || by apply deref_truncate_not_digit).
  destruct (Z.eqb_spec n 0) as [->|_]; [lia|]. reflexivity.
Qed.

Lemma line_command_ok (n : Z) (command : string) (s : session) :
  wf s -> 0 <= n <= MAX_LINES ->
  line_command ami n command s = line_switch ami n command (prepare n s).
Proof.
  intros Hwf Hn. unfold line_command, bind.
  rewrite set_line_ok by done.
  rewrite set_line_ok by auto using wf_update_line.
  rewrite set_line_ok by auto using wf_update_line.
  reflexivity.
Qed.

(** A line without a leading digit is a global command. *)
Lemma run_command_global (command : string) (s : session) :
  isdigit (deref (truncate_at ";" command)) = false ->
  run_command ami command s = global_command ami (truncate_at ";" command) s.
Proof. intros H. unfold run_command. by rewrite H. Qed.

End Parsing.

(** ** Hanging up every line *)

Lemma requests_app (a b : list event) :
  requests (a ++ b) = (requests a ++ requests b)%list.
Proof.
  induction a as [|e a IH]; simpl; [done|].
  destruct e; simpl; by rewrite ?IH.
Qed.

Lemma channel_at_update_offhook (s : session) (n m : Z) (v : bool) :
  wf s -> 0 <= n <= MAX_LINES -> 0 <= m ->
  channel_at (update_line n (with_offhook v) s) m = channel_at s m.
Proof.
  intros Hwf Hn Hm. unfold channel_at.
  destruct (Z.eq_dec n m) as [<-|Hne].
  - by rewrite line_at_update_same.
  - rewrite line_at_update_other; [done|lia|done|done].
Qed.

Section Hangup.
Variable ami : list event -> request -> option ami_response.

Lemma hangup_line_spec (i : Z) (s : session) :
  wf s -> 1 <= i <= MAX_LINES ->
  exists s1 new,
    hangup_line ami i s = Done tt s1 /\ wf s1 /\
    log s1 = (log s ++ new)%list /\
    requests new =
      (if offhook_at s i then [Hangup (channel_at s i) 16] else []) /\
    (forall j, 0 <= j -> channel_at s1 j = channel_at s j) /\
    (forall j, 0 <= j -> j <> i -> line_at s1 j = line_at s j).
Proof.
  intros Hwf Hi. unfold hangup_line, bind.
  rewrite get_line_ok by (done || lia).
  fold (offhook_at s i). fold (channel_at s i).
  destruct (offhook_at s i).
  - unfold ami_action.
    set (req := Hangup (channel_at s i) 16).
    set (resp := ami (log s) req).
    destruct (succeeded resp).
    + simpl. rewrite set_line_ok by (done || lia).
      eexists _, [EvAction req resp; EvStderr _]. split; [reflexivity|].
      split; [by apply wf_update_line|].
      split; [simpl; by rewrite <- app_assoc|].
      split; [done|]. split.
      * intros j Hj. rewrite channel_at_update_offhook by (done || lia). done.
      * intros j Hj Hne. rewrite line_at_update_other by (lia || done). done.
    + eexists _, [EvAction req resp]. simpl. repeat split; done.
  - exists s, []. simpl. rewrite app_nil_r. repeat split; done.
Qed.

Lemma for_each_hangup_spec (indices : list Z) (s : session) :
  wf s -> NoDup indices -> Forall (fun i => 1 <= i <= MAX_LINES) indices ->
  exists s' new,
    for_each indices (hangup_line ami) s = Done tt s' /\ wf s' /\
    log s' = (log s ++ new)%list /\
    requests new =
      map (fun i => Hangup (channel_at s i) 16)
          (List.filter (offhook_at s) indices) /\
    (forall j, 0 <= j -> channel_at s' j = channel_at s j) /\
    (forall j, 0 <= j -> j ∉ indices -> line_at s' j = line_at s j).
Proof.
  revert s. induction indices as [|i rest IH]; intros s Hwf Hnd Hall.
  - exists s, []. simpl. rewrite app_nil_r. repeat split; done.
  - inversion Hnd as [|? ? Hnotin Hnd']; subst.
    inversion Hall as [|? ? Hi Hall']; subst.
    destruct (hangup_line_spec i s Hwf Hi)
      as (s1 & new1 & Hrun1 & Hwf1 & Hlog1 & Hreq1 & Hchan1 & Hother1).
    destruct (IH s1 Hwf1 Hnd' Hall')
      as (s2 & new2 & Hrun2 & Hwf2 & Hlog2 & Hreq2 & Hchan2 & Hother2).
    exists s2, (new1 ++ new2)%list. simpl. unfold bind. rewrite Hrun1.
    split; [done|]. split; [done|].
    split; [by rewrite Hlog2, Hlog1, app_assoc|].
    assert (Hrest : List.filter (offhook_at s1) rest = List.filter (offhook_at s) rest).
    { apply List.filter_ext_in. intros j Hj. unfold offhook_at.
      rewrite Forall_forall in Hall'.
      assert (j ∈ rest) as Hj' by by apply list_elem_of_In.
      rewrite Hother1; [done|specialize (Hall' j Hj'); lia|].
      intros ->. done. }
    split; [|split].
    + rewrite requests_app, Hreq1, Hreq2, Hrest.
      assert (Hmap : map (fun j => Hangup (channel_at s1 j) 16) (List.filter (offhook_at s) rest)
                     = map (fun j => Hangup (channel_at s j) 16) (List.filter (offhook_at s) rest)).
      { apply List.map_ext_in. intros j Hj.
        apply List.filter_In in Hj as [Hj _].
        rewrite Forall_forall in Hall'.
        assert (j ∈ rest) as Hj' by by apply list_elem_of_In.
        rewrite Hchan1; [done|specialize (Hall' j Hj'); lia]. }
      rewrite Hmap. by destruct (offhook_at s i).
    + intros j Hj. rewrite Hchan2, Hchan1; done.
    + intros j Hj Hnotin'. rewrite not_elem_of_cons in Hnotin'.
      destruct Hnotin' as [Hne Hnr]. rewrite Hother2, Hother1; done.
Qed.

Lemma hangup_all_spec (s : session) :
  wf s ->
  exists s' new,
    hangup_all ami s = Done tt s' /\ wf s' /\
    log s' = (log s ++ new)%list /\
    requests new =
      map (fun i => Hangup (channel_at s i) 16)
          (List.filter (offhook_at s) (seqZ 1 MAX_LINES)) /\
    (forall j, 0 <= j -> channel_at s' j = channel_at s j) /\
    line_at s' 0 = line_at s 0.
Proof.
  intros Hwf.
  destruct (for_each_hangup_spec (seqZ 1 MAX_LINES) s Hwf)
    as (s' & new & Hrun & Hwf' & Hlog & Hreq & Hchan & Hother).
  - apply NoDup_seqZ.
  - apply Forall_forall. intros i Hi. apply elem_of_seqZ in Hi. lia.
  - exists s', new. repeat split; try done.
    apply Hother; [lia|]. rewrite elem_of_seqZ. lia.
Qed.

End Hangup.

(** ** The channel resolver *)

(** The test of [find_channel] is the prefix test of the library. *)
Lemma has_prefix_spec (prefix chan : string) :
  has_prefix prefix chan = String.prefix prefix chan.
Proof.
  unfold has_prefix. revert chan.
  induction prefix as [|y p IH]; intros chan.
  - by destruct chan.
  - destruct chan as [|x c]; simpl; [done|].
    rewrite IH. destruct (ascii_dec y x) as [->|Hne].
    + by rewrite Ascii.eqb_refl.
    + destruct (Ascii.eqb_spec x y) as [->|_]; done.
Qed.

Lemma strncpy_fits (src : string) (n : nat) :
  (String.length src <= n)%nat -> strncpy src n = src.
Proof.
  unfold strncpy. revert n.
  induction src as [|c src IH]; intros n Hlen; destruct n; simpl in *;
    try done; try lia.
  rewrite IH; [done|lia].
Qed.

Lemma inner_events_framed (r : ami_response) (header footer : ami_event)
    (inner : list ami_event) :
  events r = (header :: inner ++ [footer])%list -> inner_events r = inner.
Proof.
  intros Hev. unfold inner_events. rewrite Hev. simpl.
  rewrite drop_0, length_app. simpl.
  replace (length inner + 1 - 1)%nat with (length inner) by lia.
  by rewrite take_app_length.
Qed.

Lemma scan_channels_none (prefix : string) (evs : list ami_event) (s : session) :
  Forall (other_channel prefix) evs ->
  scan_channels prefix evs s = Done None s.
Proof.
  induction 1 as [|e evs (chan & Hchan & Hpre) _ IH]; simpl; [done|].
  unfold channel_of in Hchan. rewrite Hchan.
  fold (has_prefix prefix chan). by rewrite has_prefix_spec, Hpre.
Qed.

Lemma scan_channels_first (prefix : string) (pre post : list ami_event)
    (e : ami_event) (chan : string) (s : session) :
  Forall (other_channel prefix) pre ->
  channel_of e = Some chan -> String.prefix prefix chan = true ->
  scan_channels prefix (pre ++ e :: post) s = Done (Some chan) s.
Proof.
  intros Hpre Hchan Hmatch.
  induction Hpre as [|e' pre (chan' & Hchan' & Hno) _ IH]; simpl.
  - unfold channel_of in Hchan. rewrite Hchan.
    fold (has_prefix prefix chan). by rewrite has_prefix_spec, Hmatch.
  - unfold channel_of in Hchan'. rewrite Hchan'.
    fold (has_prefix prefix chan'). by rewrite has_prefix_spec, Hno.
Qed.

(** When every event carries a channel the scan ends without a fault,
    and what it finds starts with [prefix]. *)
Lemma scan_channels_total (prefix : string) (evs : list ami_event) (s : session) :
  Forall (fun e => is_Some (channel_of e)) evs ->
  exists found, scan_channels prefix evs s = Done found s.
Proof.
  induction 1 as [|e evs [chan Hchan] _ [found IH]]; simpl; [by eexists|].
  unfold channel_of in Hchan. rewrite Hchan.
  destruct (strncmp_eq chan prefix (String.length prefix)); by eexists.
Qed.

Section Resolver.
Variable ami : list event -> request -> option ami_response.

Lemma find_channel_no_response (n : Z) (s : session) :
  wf s -> 0 <= n <= MAX_LINES ->
  ami (log s) CoreShowChannels = None ->
  find_channel ami n s =
  Done (-1) (logged s [EvAction CoreShowChannels None;
                       EvStderr ("Failed to show channels" ++ nl)]).
Proof.
  intros Hwf Hn Hami. unfold find_channel, bind, ami_action.
  rewrite get_line_ok by done. rewrite Hami. simpl.
  unfold logged. simpl. by rewrite <- app_assoc.
Qed.

Lemma find_channel_no_match (n : Z) (s : session) (r : ami_response) :
  wf s -> 0 <= n <= MAX_LINES ->
  ami (log s) CoreShowChannels = Some r ->
  Forall (other_channel (devicename (line_at s n))) (inner_events r) ->
  find_channel ami n s =
  Done (-1) (logged s [EvAction CoreShowChannels (Some r);
                       EvStderr ("Failed to find channel for "
                                 ++ devicename (line_at s n) ++ nl)]).
Proof.
  intros Hwf Hn Hami Hall. unfold find_channel, bind, ami_action.
  rewrite get_line_ok by done. rewrite Hami.
  rewrite scan_channels_none by done.
  rewrite get_line_ok by done. simpl.
  unfold logged. simpl. by rewrite <- app_assoc.
Qed.

Lemma find_channel_match (n : Z) (s : session) (r : ami_response)
    (pre post : list ami_event) (e : ami_event) (chan : string) :
  wf s -> 0 <= n <= MAX_LINES ->
  ami (log s) CoreShowChannels = Some r ->
  inner_events r = (pre ++ e :: post)%list ->
  Forall (other_channel (devicename (line_at s n))) pre ->
  channel_of e = Some chan ->
  String.prefix (devicename (line_at s n)) chan = true ->
  find_channel ami n s =
  Done 0 (update_line n (with_channel (strncpy chan 127))
            (logged s [EvAction CoreShowChannels (Some r)])).
Proof.
  intros Hwf Hn Hami Hinner Hpre Hchan Hmatch.
  unfold find_channel, bind, ami_action.
  rewrite get_line_ok by done. rewrite Hami, Hinner.
  rewrite (scan_channels_first _ pre post e chan) by done.
  rewrite set_line_ok by done. reflexivity.
Qed.

(** With a channel in every listed event, [find_channel] returns; it
    never changes a hook state and only ever writes [lines[n].channel]. *)
Lemma find_channel_total (n : Z) (s : session) :
  wf s -> 0 <= n <= MAX_LINES ->
  listable (ami (log s) CoreShowChannels) ->
  exists res s',
    find_channel ami n s = Done res s' /\ wf s' /\
    (forall j, 0 <= j -> offhook_at s' j = offhook_at s j) /\
    (forall j, 0 <= j -> j <> n -> line_at s' j = line_at s j).
Proof.
  intros Hwf Hn Hlist.
  destruct (ami (log s) CoreShowChannels) as [r|] eqn:Hami; simpl in Hlist.
  - unfold find_channel, bind, ami_action.
    rewrite get_line_ok by done. rewrite Hami.
    destruct (scan_channels_total (devicename (line_at s n)) (inner_events r)
                {| lines := lines s;
                   log := (log s ++ [EvAction CoreShowChannels (Some r)])%list |}
                Hlist) as [found Hscan].
    rewrite Hscan. destruct found as [chan|].
    + rewrite set_line_ok by done. eexists _, _. split; [reflexivity|].
      split; [by apply wf_update_line|]. split.
      * intros j Hj. unfold offhook_at.
        destruct (Z.eq_dec n j) as [<-|Hne].
        -- by rewrite line_at_update_same.
        -- rewrite line_at_update_other; [done|lia|done|done].
      * intros j Hj Hne. rewrite line_at_update_other; [done|lia|done|done].
    + rewrite get_line_ok by done. simpl. eexists _, _.
      split; [reflexivity|]. repeat split; done.
  - rewrite find_channel_no_response by done.
    eexists _, _. split; [reflexivity|]. repeat split; done.
Qed.

End Resolver.

(** ** Line commands *)

Arguments prepare : simpl never.
Arguments update_line : simpl never.
Arguments logged : simpl never.
Arguments line_at : simpl never.
Arguments device_of : simpl never.
Arguments dialstr_of : simpl never.
Arguments fmt_d : simpl never.

Lemma device_of_prepared (n : Z) (s : session) :
  wf s -> 0 <= n <= MAX_LINES -> devicename (line_at (prepare n s) n) = device_of n.
Proof. intros Hwf Hn. by rewrite line_at_prepare_same. Qed.

Section LineCommands.
Variable ami : list event -> request -> option ami_response.

Lemma gone_offhook_facts (n : Z) (s : session) (r : ami_response) :
  wf s -> 1 <= n <= MAX_LINES ->
  wf (gone_offhook n s r) /\
  log (gone_offhook n s r) = (log s ++ [EvAction (originate_req n) (Some r)])%list /\
  line_at (gone_offhook n s r) n =
    {| devicename := device_of n; dialstr := dialstr_of n;
       dialexten := dialexten_const;
       channel := channel_at s n; offhook := true |}.
Proof.
  intros Hwf Hn. unfold gone_offhook. split; [|split].
  - apply wf_update_line, wf_logged. by apply wf_prepare.
  - reflexivity.
  - rewrite line_at_update_same; [|by apply wf_logged, wf_prepare|lia].
    rewrite line_at_logged, line_at_prepare_same by (done || lia). done.
Qed.

(** [o] with a successful originate: the line goes off hook, then the
    resolver runs. *)
Lemma originate_command (n : Z) (s : session) (r : ami_response) :
  wf s -> 1 <= n <= MAX_LINES ->
  ami (log s) (originate_req n) = Some r -> success r = true ->
  run_command ami (line_cmd n "o") s =
  (res <- find_channel ami n ;;
   (if res =? 0 then eprint ("OK" ++ nl) else ret tt) ;; ret 0)
    (gone_offhook n s r).
Proof.
  intros Hwf Hn Hami Hok.
  rewrite run_command_line by done. simpl ltrim.
  rewrite line_command_ok by (done || lia).
  unfold line_switch. simpl. unfold bind at 1.
  rewrite get_line_ok by (by apply wf_prepare || lia).
  rewrite line_at_prepare_same by (done || lia). simpl.
  unfold bind at 1, ami_action at 1. rewrite log_prepare.
  fold dialexten_const. fold (originate_req n). rewrite Hami.
  unfold require_resp, succeeded. rewrite Hok.
  change {| lines := lines (prepare n s);
            log := (log s ++ [EvAction (originate_req n) (Some r)])%list |}
    with (logged (prepare n s) [EvAction (originate_req n) (Some r)]).
  unfold bind at 1. unfold bind at 1.
  rewrite set_line_ok; [|by apply wf_logged, wf_prepare|lia].
  fold (gone_offhook n s r).
  unfold bind.
  destruct (find_channel ami n (gone_offhook n s r)) as [res s'|f]; [|done].
  by destruct (res =? 0).
Qed.

End LineCommands.

(** The verb is matched after [tolower]: each guarded verb has two
    spellings. *)
Lemma guarded_verb_cases (v : ascii) :
  tolower v = "h"%char \/ tolower v = "f"%char \/ tolower v = "d"%char ->
  v = "h"%char \/ v = "H"%char \/ v = "f"%char \/ v = "F"%char \/
  v = "d"%char \/ v = "D"%char.
Proof.
  destruct v as [[] [] [] [] [] [] [] []]; vm_compute;
    intros [H|[H|H]]; try discriminate H; tauto.
Qed.

Section GuardedCommands.
Variable ami : list event -> request -> option ami_response.

(** [h], [f] and [d] on an on-hook line stop at [REQUIRE_ACTIVE]. *)
Lemma on_hook_rejected (n : Z) (v : ascii) (tail : string) (s : session) :
  wf s -> 1 <= n <= MAX_LINES -> offhook_at s n = false ->
  tolower v = "h"%char \/ tolower v = "f"%char \/ tolower v = "d"%char ->
  run_command ami (line_cmd n (String v tail)) s =
  Done 0 (logged (prepare n s)
            [EvStderr ("Can't do this action on on-hook line" ++ nl)]).
Proof.
  intros Hwf Hn Hoff Hv.
  assert (Hget : get_line n (prepare n s) = Done (line_at (prepare n s) n) (prepare n s))
    by (apply get_line_ok; [by apply wf_prepare|lia]).
  assert (Hhook : offhook (line_at (prepare n s) n) = false)
    by (rewrite line_at_prepare_same by (done || lia); done).
  destruct (guarded_verb_cases v Hv) as [-> | [-> | [-> | [-> | [-> | ->]]]]];
    (rewrite run_command_line by done);
    simpl truncate_at; simpl ltrim;
    (rewrite line_command_ok by (done || lia));
    unfold line_switch; simpl;
    unfold require_active, bind; rewrite Hget, Hhook; reflexivity.
Qed.

(** [h] on an off-hook line, answered with success. *)
Lemma hangup_command (n : Z) (s : session) (r : ami_response) :
  wf s -> 1 <= n <= MAX_LINES -> offhook_at s n = true ->
  ami (log s) (Hangup (channel_at s n) 16) = Some r -> success r = true ->
  run_command ami (line_cmd n "h") s =
  Done 0 (logged
            (update_line n (with_offhook false)
               (logged (prepare n s)
                  [EvAction (Hangup (channel_at s n) 16) (Some r)]))
            [EvStderr ("OK" ++ nl)]).
Proof.
  intros Hwf Hn Hoff Hami Hok.
  assert (Hget : get_line n (prepare n s) = Done (line_at (prepare n s) n) (prepare n s))
    by (apply get_line_ok; [by apply wf_prepare|lia]).
  rewrite run_command_line by done. simpl ltrim.
  rewrite line_command_ok by (done || lia).
  unfold line_switch. simpl.
  unfold require_active. unfold bind at 1. rewrite Hget.
  rewrite line_at_prepare_same by (done || lia). simpl. rewrite Hoff.
  unfold bind at 1. rewrite Hget.
  rewrite line_at_prepare_same by (done || lia). simpl.
  unfold bind at 1, ami_action at 1. rewrite log_prepare, Hami.
  unfold require_resp, succeeded. rewrite Hok.
  change {| lines := lines (prepare n s);
            log := (log s ++ [EvAction (Hangup (channel_at s n) 16) (Some r)])%list |}
    with (logged (prepare n s) [EvAction (Hangup (channel_at s n) 16) (Some r)]).
  unfold bind.
  rewrite set_line_ok; [|by apply wf_logged, wf_prepare|lia].
  reflexivity.
Qed.

(** The loop that plays the digits. *)
Lemma play_digits_spec (n : Z) (digits : string) (s : session) :
  wf s -> 1 <= n <= MAX_LINES ->
  exists new,
    play_digits ami n digits s = Done tt (logged s new) /\
    Forall2 (fun e c => exists resp,
               e = EvAction (PlayDTMF (channel_at s n) c) resp)
            new (chars digits).
Proof.
  intros Hwf Hn. revert s Hwf.
  induction digits as [|c digits IH]; intros s Hwf; simpl.
  - exists []. split; [|constructor].
    unfold ret, logged. rewrite app_nil_r. by destruct s.
  - unfold bind at 1. rewrite get_line_ok by (done || lia).
    unfold bind at 1, ami_action at 1. fold (channel_at s n).
    set (e := EvAction (PlayDTMF (channel_at s n) c)
                (ami (log s) (PlayDTMF (channel_at s n) c))).
    change {| lines := lines s; log := (log s ++ [e])%list |} with (logged s [e]).
    destruct (IH (logged s [e])) as (new & Hrun & Hall); [by apply wf_logged|].
    exists (e :: new). rewrite Hrun, logged_logged. split; [done|].
    constructor; [by eexists|exact Hall].
Qed.

End GuardedCommands.

Lemma dial_verb_cases (v : ascii) :
  tolower v = "d"%char -> v = "d"%char \/ v = "D"%char.
Proof.
  destruct v as [[] [] [] [] [] [] [] []]; vm_compute;
    intros H; try discriminate H; tauto.
Qed.

Section DialCommands.
Variable ami : list event -> request -> option ami_response.

(** What [d] does on an off-hook line, by the character after it. *)
Lemma dial_command (n : Z) (v : ascii) (rest : string) (s : session) :
  wf s -> 1 <= n <= MAX_LINES -> offhook_at s n = true ->
  tolower v = "d"%char ->
  run_command ami (line_cmd n (String v rest)) s =
  (let tmp := truncate_at ";" rest in
   (if Ascii.eqb (deref tmp) "t" then play_digits ami n (advance tmp)
    else if Ascii.eqb (deref tmp) "p" then
      eprint ("Dial pulse not yet supported" ++ nl)
    else eprint ("Invalid dial type " ++ fmt_c (deref tmp) ++ nl)) ;;
   ret 0) (prepare n s).
Proof.
  intros Hwf Hn Hoff Hv.
  assert (Hget : get_line n (prepare n s) = Done (line_at (prepare n s) n) (prepare n s))
    by (apply get_line_ok; [by apply wf_prepare|lia]).
  assert (Hhook : offhook (line_at (prepare n s) n) = true)
    by (rewrite line_at_prepare_same by (done || lia); done).
  destruct (dial_verb_cases v Hv) as [-> | ->];
    (rewrite run_command_line by done);
    simpl truncate_at; simpl ltrim;
    (rewrite line_command_ok by (done || lia));
    unfold line_switch; simpl;
    unfold require_active; unfold bind at 1; rewrite Hget, Hhook; reflexivity.
Qed.

(** The session loop after the newline of a command. *)
Lemma session_loop_newline (inp : list input) (buf : list ascii) (left : Z)
    (s s' : session) (res : Z) :
  run_command ami (c_str buf) s = Done res s' ->
  session_loop ami (ReadChar LF :: inp) false buf left s =
  if res =? 0 then session_loop ami inp true buf left s' else Done tt s'.
Proof.
  intros Hrun. simpl. unfold bind at 1. simpl. unfold bind at 1.
  rewrite Hrun. by destruct (res =? 0).
Qed.

End DialCommands.

(** ** The model on the scenarios of the specification *)

(** ["1o"], the originate succeeds and the channel list has one channel
    of line 1: the line is off hook on that channel, and OK is printed. *)
Example scenario_originate :
  exists s',
    run_command busy_server "1o" initial_session = Done 0 s' /\
    offhook_at s' 1 = true /\
    channel_at s' 1 = "PJSIP/autotest1-00000001" /\
    log s' =
      [EvAction (originate_req 1) (Some plain_ok);
       EvAction CoreShowChannels
         (Some (channel_list ["PJSIP/other-00000007"; "PJSIP/autotest1-00000001"]));
       EvStderr ("OK" ++ nl)].
Proof. eexists. split; [vm_compute; reflexivity|]. repeat split. Qed.

(** ["ms500"] sleeps half a second and sends nothing. *)
Example scenario_millisecond_sleep :
  run_command busy_server "ms500" initial_session =
  Done 0 (logged initial_session [EvUsleep 500000]).
Proof. reflexivity. Qed.

(** ["q"] typed on a fresh session: the loop ends, the connection is
    released, and no action was sent. *)
Example scenario_quit :
  multidialer busy_server (typed ("q" ++ nl)) initial_session =
  Done 0 (logged initial_session
            [EvSignal; EvTcsetattr ttyterm; EvStderr ">";
             EvAmiDisconnect; EvTcsetattr origterm]).
Proof. reflexivity. Qed.

(** A comment is cut before the line is parsed. *)
Example scenario_comment :
  run_command busy_server "1o;foo" initial_session =
  run_command busy_server "1o" initial_session.
Proof. reflexivity. Qed.

(** 62 characters without a newline: the buffer is reset, and the
    newline that follows runs the empty command. *)
Example scenario_overflow :
  exists s',
    multidialer busy_server (typed (string_of_list_ascii (repeat "o"%char 62) ++ nl))
      initial_session = Done 0 s' /\
    log s' =
      [EvSignal; EvTcsetattr ttyterm; EvStderr ">";
       EvStderr ("Command too long" ++ nl); EvStderr ">";
       EvStderr ("Unknown global command ''" ++ nl); EvStderr ">";
       EvAmiDisconnect; EvTcsetattr origterm].
Proof. eexists. split; vm_compute; reflexivity. Qed.

(** * The claims *)

(** ** C1: originate, then hang up *)

(** C1, as stated, fails: on a server where the originate succeeds, the
    channel list names a channel of line 1 and the hangup succeeds, ["1o"]
    then ["1h"] on a fresh session leaves line 1 on hook, but its channel
    id still holds the channel bound by the origination; it is not
    cleared back to the empty string it started with. *)
Lemma C1_channel_kept_after_hangup :
  exists s1 s2,
    run_command busy_server "1o" initial_session = Done 0 s1 /\
    offhook_at s1 1 = true /\
    run_command busy_server "1h" s1 = Done 0 s2 /\
    log s2 =
      [EvAction (originate_req 1) (Some plain_ok);
       EvAction CoreShowChannels
         (Some (channel_list ["PJSIP/other-00000007"; "PJSIP/autotest1-00000001"]));
       EvStderr ("OK" ++ nl);
       EvAction (Hangup "PJSIP/autotest1-00000001" 16) (Some plain_ok);
       EvStderr ("OK" ++ nl)] /\
    offhook_at s2 1 = false /\
    channel_at initial_session 1 = EmptyString /\
    channel_at s2 1 = "PJSIP/autotest1-00000001".
Proof.
  eexists _, _.
  split; [vm_compute; reflexivity|].
  split; [vm_compute; reflexivity|].
  split; [vm_compute; reflexivity|].
  repeat split; vm_compute; reflexivity.
Qed.

(** C1, amended: for every line 1 to 9 that is on hook, a successful
    origination ([o]) followed by a successful hangup ([h]) returns the
    hook state to on hook; the hangup changes only the hook state, the
    stored channel id stays what it was after the origination. *)
Theorem C1_originate_then_hangup
    (ami : list event -> request -> option ami_response)
    (n : Z) (s : session) (r : ami_response) :
  wf s -> 1 <= n <= MAX_LINES ->
  offhook_at s n = false ->
  ami (log s) (originate_req n) = Some r -> success r = true ->
  listable (ami (log s ++ [EvAction (originate_req n) (Some r)])%list CoreShowChannels) ->
  exists s1,
    run_command ami (line_cmd n "o") s = Done 0 s1 /\
    offhook_at s1 n = true /\
    forall r',
      ami (log s1) (Hangup (channel_at s1 n) 16) = Some r' -> success r' = true ->
      exists s2,
        run_command ami (line_cmd n "h") s1 = Done 0 s2 /\
        offhook_at s2 n = false /\
        channel_at s2 n = channel_at s1 n.
Proof.
  intros Hwf Hn _ Hami Hok Hlist.
  destruct (gone_offhook_facts n s r Hwf Hn) as (Hwf0 & Hlog0 & Hline0).
  destruct (find_channel_total ami n (gone_offhook n s r)) as
    (res & s' & Hfind & Hwf' & Hhook' & _); [done|lia|by rewrite Hlog0|].
  assert (Hoff' : offhook_at s' n = true).
  { rewrite Hhook' by lia. unfold offhook_at. by rewrite Hline0. }
  assert (Hrun : exists s1, run_command ami (line_cmd n "o") s = Done 0 s1 /\
                            wf s1 /\ offhook_at s1 n = true).
  { rewrite (originate_command ami n s r) by done. unfold bind at 1. rewrite Hfind.
    destruct (res =? 0).
    - exists (logged s' [EvStderr ("OK" ++ nl)]). repeat split; done.
    - exists s'. repeat split; done. }
  destruct Hrun as (s1 & Hrun & Hwf1 & Hoff1).
  exists s1. split; [done|]. split; [done|].
  intros r' Hami' Hok'. eexists. split; [by apply hangup_command|].
  unfold offhook_at, channel_at.
  rewrite !line_at_logged.
  rewrite line_at_update_same; [|by apply wf_logged, wf_prepare|lia].
  rewrite line_at_logged, line_at_prepare_same by (done || lia). done.
Qed.

(** A run of C1: line 1 of a fresh session, on the scripted server. *)
Lemma C1_originate_then_hangup_witness :
  exists s1,
    run_command busy_server (line_cmd 1 "o") initial_session = Done 0 s1 /\
    offhook_at s1 1 = true /\
    forall r',
      busy_server (log s1) (Hangup (channel_at s1 1) 16) = Some r' ->
      success r' = true ->
      exists s2,
        run_command busy_server (line_cmd 1 "h") s1 = Done 0 s2 /\
        offhook_at s2 1 = false /\
        channel_at s2 1 = channel_at s1 1.
Proof.
  apply (C1_originate_then_hangup busy_server 1 initial_session plain_ok).
  - reflexivity.
  - unfold MAX_LINES. lia.
  - reflexivity.
  - reflexivity.
  - reflexivity.
  - vm_compute. repeat constructor; by eexists.
Defined.

(** ** C6: a failed resolution does not undo the hook state *)

(** C6: for every line 1 to 9, when the originate action succeeds and the
    channel resolution then fails, because the channel query gets no
    response or because no listed channel starts with the device name of
    the line, the command returns with the line off hook and with the
    channel id it had before. *)
Theorem C6_failed_resolution_keeps_offhook
    (ami : list event -> request -> option ami_response)
    (n : Z) (s : session) (r : ami_response) :
  wf s -> 1 <= n <= MAX_LINES ->
  ami (log s) (originate_req n) = Some r -> success r = true ->
  (let history := (log s ++ [EvAction (originate_req n) (Some r)])%list in
   ami history CoreShowChannels = None \/
   exists listing,
     ami history CoreShowChannels = Some listing /\
     Forall (other_channel (device_of n)) (inner_events listing)) ->
  exists s',
    run_command ami (line_cmd n "o") s = Done 0 s' /\
    offhook_at s' n = true /\
    channel_at s' n = channel_at s n /\
    requests (log s') = (requests (log s) ++ [originate_req n; CoreShowChannels])%list.
Proof.
  intros Hwf Hn Hami Hok Hfail.
  destruct (gone_offhook_facts n s r Hwf Hn) as (Hwf0 & Hlog0 & Hline0).
  rewrite (originate_command ami n s r) by done.
  assert (Hfind : exists msg resp,
            find_channel ami n (gone_offhook n s r) =
            Done (-1) (logged (gone_offhook n s r)
                         [EvAction CoreShowChannels resp; EvStderr msg])).
  { destruct Hfail as [Hnone|(listing & Hsome & Hall)].
    - eexists _, _. apply find_channel_no_response; [done|lia|by rewrite Hlog0].
    - eexists _, _. apply (find_channel_no_match ami n _ listing);
        [done|lia|by rewrite Hlog0|by rewrite Hline0]. }
  destruct Hfind as (msg & resp & Hfind).
  unfold bind at 1. rewrite Hfind. simpl.
  eexists. split; [reflexivity|].
  unfold offhook_at, channel_at. rewrite line_at_logged, Hline0.
  repeat split.
  change (log (logged ?x ?new)) with (log x ++ new)%list.
  rewrite Hlog0, !requests_app. simpl. by rewrite <- app_assoc.
Qed.

(** A run of C6: the server lists only a channel of another device. *)
Lemma C6_failed_resolution_keeps_offhook_witness :
  exists s',
    run_command (server ["PJSIP/other-00000007"]) (line_cmd 3 "o") initial_session
      = Done 0 s' /\
    offhook_at s' 3 = true /\
    channel_at s' 3 = channel_at initial_session 3 /\
    requests (log s') =
      (requests (log initial_session) ++ [originate_req 3; CoreShowChannels])%list.
Proof.
  apply (C6_failed_resolution_keeps_offhook
           (server ["PJSIP/other-00000007"]) 3 initial_session plain_ok).
  - reflexivity.
  - unfold MAX_LINES. lia.
  - reflexivity.
  - reflexivity.
  - right. eexists. split; [reflexivity|].
    vm_compute. repeat constructor. eexists. split; reflexivity.
Defined.

(** ** C7: actions that need an off-hook line *)

(** C7: for every line 1 to 9 that is on hook, a line command whose verb
    is [h], [f] or [d] (in either case, with any argument) is rejected:
    the only effect is the error message, no AMI action is sent, no hook
    state or channel id changes, [run_command] returns 0 and the session
    loop goes on with the next input. *)
Theorem C7_on_hook_line_rejects_action
    (ami : list event -> request -> option ami_response)
    (n : Z) (v : ascii) (tail : string) (s : session) :
  wf s -> 1 <= n <= MAX_LINES ->
  offhook_at s n = false ->
  tolower v = "h"%char \/ tolower v = "f"%char \/ tolower v = "d"%char ->
  exists s',
    run_command ami (line_cmd n (String v tail)) s = Done 0 s' /\
    log s' = (log s ++ [EvStderr ("Can't do this action on on-hook line" ++ nl)])%list /\
    requests (log s') = requests (log s) /\
    (forall j, 0 <= j ->
       offhook_at s' j = offhook_at s j /\ channel_at s' j = channel_at s j) /\
    (forall inp buf left,
       c_str buf = line_cmd n (String v tail) ->
       session_loop ami (ReadChar LF :: inp) false buf left s =
       session_loop ami inp true buf left s').
Proof.
  intros Hwf Hn Hoff Hv.
  pose proof (on_hook_rejected ami n v tail s Hwf Hn Hoff Hv) as Hrun.
  eexists. split; [exact Hrun|]. split; [reflexivity|]. split; [|split].
  - change (log (logged ?x ?new)) with (log x ++ new)%list.
    rewrite log_prepare, requests_app. simpl. by rewrite app_nil_r.
  - intros j Hj. unfold offhook_at, channel_at. rewrite line_at_logged.
    apply hook_and_channel_prepare; (done || lia).
  - intros inp buf left Hbuf.
    rewrite <- Hbuf in Hrun.
    by rewrite (session_loop_newline ami inp buf left _ _ _ Hrun).
Qed.

(** A run of C7: ["2f"] on a fresh session. *)
Lemma C7_on_hook_line_rejects_action_witness :
  exists s',
    run_command busy_server (line_cmd 2 "f") initial_session = Done 0 s' /\
    log s' = (log initial_session
              ++ [EvStderr ("Can't do this action on on-hook line" ++ nl)])%list /\
    requests (log s') = requests (log initial_session) /\
    (forall j, 0 <= j ->
       offhook_at s' j = offhook_at initial_session j /\
       channel_at s' j = channel_at initial_session j) /\
    (forall inp buf left,
       c_str buf = line_cmd 2 "f" ->
       session_loop busy_server (ReadChar LF :: inp) false buf left initial_session =
       session_loop busy_server inp true buf left s').
Proof.
  apply (C7_on_hook_line_rejects_action busy_server 2 "f"%char EmptyString initial_session).
  - reflexivity.
  - unfold MAX_LINES. lia.
  - reflexivity.
  - right. left. reflexivity.
Defined.

(** ** C8: the resolver binds the first matching channel *)

(** C8: for every line 1 to 9 and every response to the channel query,
    [find_channel] leaves out the first and the last event of the
    response, scans the others in order and, at the first one whose
    channel starts with the device name of the line, stores that channel
    in the line and returns 0.  The channel is stored through
    [strncpy] into the 128-byte buffer of the line: it is the identifier
    itself whenever the identifier has at most 127 characters.  In
    particular a listing with exactly one such channel binds that one. *)
Theorem C8_resolver_binds_first_match
    (ami : list event -> request -> option ami_response)
    (n : Z) (s : session) (listing : ami_response)
    (header footer e : ami_event) (pre post : list ami_event) (chan : string) :
  wf s -> 1 <= n <= MAX_LINES ->
  ami (log s) CoreShowChannels = Some listing ->
  events listing = (header :: (pre ++ e :: post) ++ [footer])%list ->
  Forall (other_channel (devicename (line_at s n))) pre ->
  channel_of e = Some chan ->
  String.prefix (devicename (line_at s n)) chan = true ->
  exists s',
    find_channel ami n s = Done 0 s' /\
    channel_at s' n = strncpy chan 127 /\
    ((String.length chan <= 127)%nat -> channel_at s' n = chan) /\
    offhook_at s' n = offhook_at s n /\
    (forall j, 0 <= j -> j <> n -> line_at s' j = line_at s j) /\
    log s' = (log s ++ [EvAction CoreShowChannels (Some listing)])%list.
Proof.
  intros Hwf Hn Hami Hev Hpre Hchan Hmatch.
  apply inner_events_framed in Hev.
  rewrite (find_channel_match ami n s listing pre post e chan)
    by (done || lia).
  eexists. split; [reflexivity|].
  assert (Hline : line_at (update_line n (with_channel (strncpy chan 127))
                    (logged s [EvAction CoreShowChannels (Some listing)])) n
                  = with_channel (strncpy chan 127) (line_at s n)).
  { rewrite line_at_update_same; [done|by apply wf_logged|lia]. }
  unfold channel_at, offhook_at. rewrite Hline. simpl.
  split; [done|]. split; [by apply strncpy_fits|]. split; [done|].
  split; [|done].
  intros j Hj Hne. rewrite line_at_update_other; [done|lia|done|done].
Qed.

(** A run of C8: the scripted server lists one channel of line 1, after a
    channel of another device. *)
Lemma C8_resolver_binds_first_match_witness :
  exists s',
    find_channel busy_server 1 (prepare 1 initial_session) = Done 0 s' /\
    channel_at s' 1 = strncpy "PJSIP/autotest1-00000001" 127 /\
    ((String.length "PJSIP/autotest1-00000001" <= 127)%nat ->
     channel_at s' 1 = "PJSIP/autotest1-00000001") /\
    offhook_at s' 1 = offhook_at (prepare 1 initial_session) 1 /\
    (forall j, 0 <= j -> j <> 1 ->
       line_at s' j = line_at (prepare 1 initial_session) j) /\
    log s' = (log (prepare 1 initial_session)
              ++ [EvAction CoreShowChannels
                    (Some (channel_list ["PJSIP/other-00000007";
                                         "PJSIP/autotest1-00000001"]))])%list.
Proof.
  apply (C8_resolver_binds_first_match busy_server 1 (prepare 1 initial_session)
           (channel_list ["PJSIP/other-00000007"; "PJSIP/autotest1-00000001"])
           [("Response", "Success")] [("Event", "CoreShowChannelsComplete")]
           (channel_event "PJSIP/autotest1-00000001")
           [channel_event "PJSIP/other-00000007"] []
           "PJSIP/autotest1-00000001").
  - reflexivity.
  - unfold MAX_LINES. lia.
  - reflexivity.
  - reflexivity.
  - repeat constructor. eexists. split; reflexivity.
  - reflexivity.
  - reflexivity.
Defined.

(** ** C9: DTMF dialing *)

(** C9: for every line 1 to 9 that is off hook, the command [dt] followed
    by an argument sends exactly one [PlayDTMF] action per character of
    the argument (what follows [dt], up to a comment), in the order of
    the characters, on the channel of the line, and nothing else: no
    text is printed. *)
Theorem C9_dtmf_one_action_per_character
    (ami : list event -> request -> option ami_response)
    (n : Z) (v : ascii) (tail : string) (s : session) :
  wf s -> 1 <= n <= MAX_LINES ->
  offhook_at s n = true ->
  tolower v = "d"%char ->
  exists new,
    run_command ami (line_cmd n (String v (String "t" tail))) s =
      Done 0 (logged (prepare n s) new) /\
    Forall2 (fun e c => exists resp,
               e = EvAction (PlayDTMF (channel_at s n) c) resp)
            new (chars (truncate_at ";" tail)).
Proof.
  intros Hwf Hn Hoff Hv.
  rewrite dial_command by done. simpl.
  destruct (play_digits_spec ami n (truncate_at ";" tail) (prepare n s))
    as (new & Hplay & Hall); [by apply wf_prepare|done|].
  exists new. unfold bind. rewrite Hplay. split; [done|].
  replace (channel_at s n) with (channel_at (prepare n s) n); [done|].
  apply hook_and_channel_prepare; (done || lia).
Qed.

(** A run of C9: ["1dt47"] with line 1 off hook. *)
Lemma C9_dtmf_one_action_per_character_witness :
  exists new,
    run_command busy_server (line_cmd 1 (String "d" (String "t" "47"))) line1_offhook =
      Done 0 (logged (prepare 1 line1_offhook) new) /\
    Forall2 (fun e c => exists resp,
               e = EvAction (PlayDTMF (channel_at line1_offhook 1) c) resp)
            new (chars (truncate_at ";" "47")).
Proof.
  apply (C9_dtmf_one_action_per_character busy_server 1 "d" "47" line1_offhook).
  - reflexivity.
  - unfold MAX_LINES. lia.
  - reflexivity.
  - reflexivity.
Defined.

(** The scenario of C9 evaluated: two digit actions, ["4"] then ["7"]. *)
Example dial_47 :
  exists s',
    run_command busy_server "1dt47" line1_offhook = Done 0 s' /\
    log s' =
      [EvAction (PlayDTMF "PJSIP/autotest1-00000001" "4") (Some plain_ok);
       EvAction (PlayDTMF "PJSIP/autotest1-00000001" "7") (Some plain_ok)].
Proof. eexists. split; vm_compute; reflexivity. Qed.

(** ** C10: the dial type is matched as typed *)

(** C10: for every line 1 to 9 that is off hook and the verb [d] in either
    case, the character after the verb is compared without case folding:
    any character other than a lowercase [t] or [p] (and other than the
    comment sign), in particular an uppercase [T] or [P], only prints the
    invalid dial type message and sends no action; a lowercase [p]
    selects pulse dialing, which only prints that it is not supported. *)
Theorem C10_dial_type_is_case_sensitive
    (ami : list event -> request -> option ami_response)
    (n : Z) (v : ascii) (tail : string) (s : session) :
  wf s -> 1 <= n <= MAX_LINES ->
  offhook_at s n = true ->
  tolower v = "d"%char ->
  (forall c : ascii,
     c <> "t"%char -> c <> "p"%char -> c <> ";"%char ->
     run_command ami (line_cmd n (String v (String c tail))) s =
     Done 0 (logged (prepare n s)
               [EvStderr ("Invalid dial type " ++ fmt_c c ++ nl)])) /\
  run_command ami (line_cmd n (String v (String "T" tail))) s =
    Done 0 (logged (prepare n s) [EvStderr ("Invalid dial type T" ++ nl)]) /\
  run_command ami (line_cmd n (String v (String "P" tail))) s =
    Done 0 (logged (prepare n s) [EvStderr ("Invalid dial type P" ++ nl)]) /\
  run_command ami (line_cmd n (String v (String "p" tail))) s =
    Done 0 (logged (prepare n s) [EvStderr ("Dial pulse not yet supported" ++ nl)]).
Proof.
  intros Hwf Hn Hoff Hv.
  assert (Hinvalid : forall c : ascii,
     c <> "t"%char -> c <> "p"%char -> c <> ";"%char ->
     run_command ami (line_cmd n (String v (String c tail))) s =
     Done 0 (logged (prepare n s)
               [EvStderr ("Invalid dial type " ++ fmt_c c ++ nl)])).
  { intros c Ht Hp Hsemi. rewrite dial_command by done.
    apply Ascii.eqb_neq in Ht, Hp, Hsemi.
    assert (Htrunc : truncate_at ";" (String c tail) = String c (truncate_at ";" tail))
      by (simpl; by rewrite Hsemi).
    rewrite Htrunc. cbv zeta. simpl deref. by rewrite Ht, Hp. }
  split; [exact Hinvalid|].
  split; [by apply (Hinvalid "T"%char)|].
  split; [by apply (Hinvalid "P"%char)|].
  by rewrite dial_command.
Qed.

(** A run of C10: ["1dT47"] with line 1 off hook. *)
Lemma C10_dial_type_is_case_sensitive_witness :
  run_command busy_server (line_cmd 1 (String "d" (String "T" "47"))) line1_offhook =
    Done 0 (logged (prepare 1 line1_offhook) [EvStderr ("Invalid dial type T" ++ nl)]).
Proof.
  apply (C10_dial_type_is_case_sensitive busy_server 1 "d" "47" line1_offhook).
  - reflexivity.
  - unfold MAX_LINES. lia.
  - reflexivity.
  - reflexivity.
Defined.

(** ** C5: upper case in global commands *)

(** C5 fails on [s]: the code tests the first character with
    [*command == 's'], without case folding, so ["S5"] is an unknown
    global command and does not sleep, while ["s5"] sleeps 5 seconds.
    The tokens matched with [strncasecmp] and [strcasecmp] do fold the
    case: [MS], [Q] and [K] behave as [ms], [q] and [k]. *)
Theorem C5_uppercase_sleep_is_unknown
    (ami : list event -> request -> option ami_response) (s : session) :
  run_command ami "S5" s =
    Done 0 (logged s [EvStderr ("Unknown global command 'S5'" ++ nl)]) /\
  run_command ami "s5" s = Done 0 (logged s [EvSleep 5]) /\
  (forall arg, run_command ami (String "M" (String "S" arg)) s =
               run_command ami (String "m" (String "s" arg)) s) /\
  run_command ami "MS500" s = Done 0 (logged s [EvUsleep 500000]) /\
  run_command ami "Q" s = run_command ami "q" s /\
  run_command ami "K" s = run_command ami "k" s.
Proof.
  repeat split; reflexivity.
Qed.

(** ** C2: the range of the line number *)

(** A line number that evaluates to 0 is rejected with the message, and
    is not taken as a global command. *)
Lemma zero_line_number_rejected
    (ami : list event -> request -> option ami_response)
    (rest : string) (s : session) :
  isdigit (deref rest) = false ->
  run_command ami (String "0" rest) s =
  Done 0 (logged s [EvStderr ("Line number must be between 1 and 9" ++ nl)]).
Proof.
  intros Hrest. unfold run_command.
  change (truncate_at ";" (String "0" rest)) with (String "0" (truncate_at ";" rest)).
  simpl deref. change (isdigit "0") with true. cbv iota.
  assert (Hzero : atoi (String "0" (truncate_at ";" rest)) = 0).
  { unfold atoi, strtol. simpl.
    rewrite digits_value_stop by by apply deref_truncate_not_digit. reflexivity. }
  rewrite Hzero. reflexivity.
Qed.

(** C2 fails above 9: the parser only rejects 0.  On ["12o"] the line
    number is 12 and the first thing [run_command] does is to write
    [lines[12].devicename], outside the array of [MAX_LINES + 1]
    elements. *)
Theorem C2_line_12_is_accessed
    (ami : list event -> request -> option ami_response) (s : session) :
  wf s ->
  run_command ami "12o" s = Crash (OutOfBounds 12).
Proof.
  intros Hwf. unfold run_command.
  change (truncate_at ";" "12o") with "12o".
  simpl deref. change (isdigit "1") with true. cbv iota.
  change (atoi "12o") with 12. simpl.
  unfold line_command, set_line. unfold bind at 1. unfold bind at 1.
  rewrite get_line_out_of_bounds; [done|done|unfold MAX_LINES; lia].
Qed.

(** ["12o"] typed on a fresh session. *)
Lemma C2_line_12_is_accessed_witness :
  run_command busy_server "12o" initial_session = Crash (OutOfBounds 12).
Proof.
  apply (C2_line_12_is_accessed busy_server initial_session).
  reflexivity.
Defined.

(** ** C4: white space *)

Lemma space_cases (c : ascii) :
  isspace c = true ->
  c = " "%char \/ c = "009"%char \/ c = "010"%char \/ c = "011"%char \/
  c = "012"%char \/ c = "013"%char.
Proof.
  destruct c as [[] [] [] [] [] [] [] []]; vm_compute;
    intros H; try discriminate H; tauto.
Qed.

Lemma truncate_at_spaces (ws rest : string) :
  all_space ws = true ->
  truncate_at ";" (ws ++ rest) = ws ++ truncate_at ";" rest.
Proof.
  induction ws as [|c ws IH]; simpl; [done|].
  intros [Hc Hws]%andb_true_iff.
  destruct (space_cases c Hc) as [-> | [-> | [-> | [-> | [-> | ->]]]]];
    simpl; by rewrite IH.
Qed.

Lemma ltrim_spaces (ws rest : string) :
  all_space ws = true -> ltrim (ws ++ rest) = ltrim rest.
Proof.
  induction ws as [|c ws IH]; simpl; [done|].
  intros [Hc Hws]%andb_true_iff. rewrite Hc. by apply IH.
Qed.

Lemma deref_spaces_not_digit (ws rest : string) :
  all_space ws = true -> isdigit (deref rest) = false ->
  isdigit (deref (ws ++ rest)) = false.
Proof.
  destruct ws as [|c ws]; simpl; [done|].
  intros [Hc Hws]%andb_true_iff _.
  by destruct (space_cases c Hc) as [-> | [-> | [-> | [-> | [-> | ->]]]]].
Qed.

Lemma truncate_at_idempotent (c : ascii) (s : string) :
  truncate_at c (truncate_at c s) = truncate_at c s.
Proof.
  induction s as [|d s IH]; simpl; [done|].
  destruct (Ascii.eqb d c) eqn:Hd; simpl; [done|]. by rewrite Hd, IH.
Qed.

(** C4, as stated, fails: [" 1o"] is not the command ["1o"].  With the
    leading space the line is a global command, which is unknown: no
    action is sent and line 1 stays on hook, whereas ["1o"] originates
    on line 1. *)
Lemma C4_leading_space_is_not_skipped :
  exists s1 s2,
    run_command busy_server " 1o" initial_session = Done 0 s1 /\
    run_command busy_server "1o" initial_session = Done 0 s2 /\
    log s1 = [EvStderr ("Unknown global command ' 1o'" ++ nl)] /\
    offhook_at s1 1 = false /\
    requests (log s2) = [originate_req 1; CoreShowChannels] /\
    offhook_at s2 1 = true.
Proof.
  eexists _, _.
  split; [vm_compute; reflexivity|].
  split; [vm_compute; reflexivity|].
  repeat split; vm_compute; reflexivity.
Qed.

(** C4, amended: for every input line the parser cuts the line at the
    first [;] and then tests its first character as it is, without
    skipping white space.  White space is skipped after the digit of the
    line number: with white space between the digit and the rest, the
    line is the same command as without.  A line that starts with white
    space is a global command, and an unknown one. *)
Theorem C4_white_space_after_line_number_only
    (ami : list event -> request -> option ami_response)
    (n : Z) (ws rest : string) (c : ascii) (tail command : string) (s : session) :
  1 <= n <= MAX_LINES ->
  all_space ws = true ->
  isdigit (deref rest) = false ->
  isspace c = true ->
  run_command ami command s = run_command ami (truncate_at ";" command) s /\
  run_command ami (line_cmd n (ws ++ rest)) s = run_command ami (line_cmd n rest) s /\
  run_command ami (String c tail) s =
    Done 0 (logged s [EvStderr ("Unknown global command '"
                                ++ truncate_at ";" (String c tail) ++ "'" ++ nl)]).
Proof.
  intros Hn Hws Hrest Hc. split; [|split].
  - unfold run_command. by rewrite truncate_at_idempotent.
  - rewrite !run_command_line by (done || by apply deref_spaces_not_digit).
    by rewrite truncate_at_spaces, ltrim_spaces.
  - destruct (space_cases c Hc) as [-> | [-> | [-> | [-> | [-> | ->]]]]];
      reflexivity.
Qed.

(** A run of C4: ["2 o"] against ["2o"], and [" 1o"]. *)
Lemma C4_white_space_after_line_number_only_witness :
  run_command busy_server "1o;foo" initial_session =
    run_command busy_server (truncate_at ";" "1o;foo") initial_session /\
  run_command busy_server (line_cmd 2 (" " ++ "o")) initial_session =
    run_command busy_server (line_cmd 2 "o") initial_session /\
  run_command busy_server (String " " "1o") initial_session =
    Done 0 (logged initial_session
              [EvStderr ("Unknown global command '"
                         ++ truncate_at ";" (String " " "1o") ++ "'" ++ nl)]).
Proof.
  apply (C4_white_space_after_line_number_only busy_server 2 " " "o" " " "1o"
           "1o;foo" initial_session).
  - unfold MAX_LINES. lia.
  - reflexivity.
  - reflexivity.
  - reflexivity.
Defined.

(** ** C3: what runs when the session ends *)

(** C3, as stated, fails on two of the three ways out.  With line 1 off
    hook, the forced-disconnect callback ends the process with the
    failure status without sending any action, so line 1 is still off
    hook; and a session that originates on line 1 and then quits with
    [q] returns 0 having sent no hangup at all. *)
Lemma C3_exits_without_hangup :
  (exists s',
     simple_disconnect_callback line1_offhook = Done EXIT_FAILURE s' /\
     offhook_at line1_offhook 1 = true /\
     requests (log s') = [] /\
     offhook_at s' 1 = true) /\
  (exists s',
     multidialer busy_server (typed ("1o" ++ nl ++ "q" ++ nl)) initial_session
       = Done 0 s' /\
     requests (log s') = [originate_req 1; CoreShowChannels] /\
     offhook_at s' 1 = true).
Proof.
  split; eexists; (split; [vm_compute; reflexivity|]);
    repeat split; vm_compute; reflexivity.
Qed.

(** C3, amended: of the three ways out, only the interrupt handler hangs
    up.  [restore_term] restores the terminal, sends a hangup for every
    line 1 to 9 that is off hook, in order and whatever the answers to
    the earlier ones are, then releases the connection and ends with the
    failure status.  The forced-disconnect callback prints its message,
    restores the terminal and ends with the failure status, without any
    action.  On [q] and at the end of the input the loop ends without
    touching the session, and [multidialer] then only releases the
    connection and restores the terminal before it returns 0. *)
Theorem C3_cleanup_by_exit_path
    (ami : list event -> request -> option ami_response) (s : session) :
  wf s ->
  (exists s' hung,
     restore_term ami s = Done EXIT_FAILURE s' /\
     log s' = (log s ++ [EvTcsetattr origterm; EvStderr nl] ++ hung
               ++ [EvAmiDisconnect;
                   EvStderr (nl ++ "AstMultiDialer exiting..." ++ nl)])%list /\
     requests hung =
       map (fun i => Hangup (channel_at s i) 16)
           (List.filter (offhook_at s) (seqZ 1 MAX_LINES))) /\
  simple_disconnect_callback s =
    Done EXIT_FAILURE
      (logged s [EvStderr (nl ++ "AMI was forcibly disconnected..." ++ nl);
                 EvTcsetattr origterm]) /\
  (forall inp buf left,
     c_str buf = "q" ->
     session_loop ami (ReadChar LF :: inp) false buf left s = Done tt s) /\
  (forall buf left, session_loop ami [] false buf left s = Done tt s) /\
  (forall inp s1,
     session_loop ami inp true [] 0 (logged s [EvSignal; EvTcsetattr ttyterm])
       = Done tt s1 ->
     multidialer ami inp s =
       Done 0 (logged s1 [EvAmiDisconnect; EvTcsetattr origterm])).
Proof.
  intros Hwf. split; [|split; [|split; [|split]]].
  - set (s0 := logged s [EvTcsetattr origterm; EvStderr nl]).
    destruct (hangup_all_spec ami s0) as (s1 & hung & Hrun & _ & Hlog & Hreq & _);
      [by apply wf_logged|].
    exists (logged s1 [EvAmiDisconnect;
                       EvStderr (nl ++ "AstMultiDialer exiting..." ++ nl)]), hung.
    split; [|split].
    + unfold restore_term, bind, emit, eprint, emit. simpl.
      rewrite <- app_assoc. simpl.
      change {| lines := lines s;
                log := (log s ++ [EvTcsetattr origterm; EvStderr nl])%list |} with s0.
      rewrite Hrun. unfold logged. simpl. by rewrite <- app_assoc.
    + change (log (logged ?x ?new)) with (log x ++ new)%list.
      rewrite Hlog. unfold s0.
      change (log (logged ?x ?new)) with (log x ++ new)%list.
      by rewrite <- !app_assoc.
    + exact Hreq.
  - unfold simple_disconnect_callback, bind, eprint, emit, logged. simpl.
    by rewrite <- app_assoc.
  - intros inp buf left Hbuf.
    rewrite (session_loop_newline ami inp buf left s s (-1)); [done|].
    rewrite Hbuf. reflexivity.
  - intros buf left. reflexivity.
  - intros inp s1 Hloop. unfold multidialer, bind, emit. simpl.
    rewrite <- app_assoc. simpl.
    change {| lines := lines s;
              log := (log s ++ [EvSignal; EvTcsetattr ttyterm])%list |}
      with (logged s [EvSignal; EvTcsetattr ttyterm]).
    rewrite Hloop. unfold logged. simpl. by rewrite <- app_assoc.
Qed.

(** A run of C3: the interrupt handler with line 1 off hook. *)
Lemma C3_cleanup_by_exit_path_witness :
  exists s' hung,
    restore_term busy_server line1_offhook = Done EXIT_FAILURE s' /\
    log s' = (log line1_offhook ++ [EvTcsetattr origterm; EvStderr nl] ++ hung
              ++ [EvAmiDisconnect;
                  EvStderr (nl ++ "AstMultiDialer exiting..." ++ nl)])%list /\
    requests hung =
      map (fun i => Hangup (channel_at line1_offhook i) 16)
          (List.filter (offhook_at line1_offhook) (seqZ 1 MAX_LINES)).
Proof.
  apply (C3_cleanup_by_exit_path busy_server line1_offhook).
  reflexivity.
Defined.

(** The interrupt handler evaluated: one hangup, for line 1. *)
Example interrupt_hangs_up_line_1 :
  exists s',
    restore_term busy_server line1_offhook = Done EXIT_FAILURE s' /\
    requests (log s') = [Hangup "PJSIP/autotest1-00000001" 16] /\
    offhook_at s' 1 = false.
Proof. eexists. split; [vm_compute; reflexivity|]. split; reflexivity. Qed.

(** * Further properties of the program *)

(** ** Hanging up: what happens to the hook states *)

Lemma with_offhook_same (l : line) : with_offhook (offhook l) l = l.
Proof. by destruct l. Qed.

Lemma with_offhook_eq (l : line) (b : bool) : offhook l = b -> with_offhook b l = l.
Proof. intros <-. apply with_offhook_same. Qed.

Section HangupEffect.
Variable ami : list event -> request -> option ami_response.

(** One turn of the loop of [hangup_all], by its effect on the lines. *)
Lemma hangup_line_effect (i : Z) (s : session) :
  wf s -> 1 <= i <= MAX_LINES ->
  exists s1,
    hangup_line ami i s = Done tt s1 /\ wf s1 /\
    (forall j, 0 <= j -> j <> i -> line_at s1 j = line_at s j) /\
    line_at s1 i =
      with_offhook
        (offhook_at s i
         && negb (succeeded (ami (log s) (Hangup (channel_at s i) 16))))
        (line_at s i) /\
    (offhook_at s i = false -> s1 = s).
Proof.
  intros Hwf Hi. unfold hangup_line, bind.
  rewrite get_line_ok by (done || lia).
  fold (offhook_at s i). fold (channel_at s i).
  destruct (offhook_at s i) eqn:Hoff.
  - unfold ami_action.
    set (req := Hangup (channel_at s i) 16).
    destruct (succeeded (ami (log s) req)) eqn:Hok.
    + simpl. rewrite set_line_ok by (done || lia).
      eexists. split; [reflexivity|].
      split; [by apply wf_update_line|]. split; [|split].
      * intros j Hj Hne. rewrite line_at_update_other by (lia || done). done.
      * rewrite line_at_update_same by (done || lia). done.
      * done.
    + eexists. split; [reflexivity|]. split; [done|]. split; [done|].
      split; [|done]. symmetry. by apply with_offhook_eq.
  - exists s. split; [done|]. split; [done|]. split; [done|]. split; [|done].
    symmetry. by apply with_offhook_eq.
Qed.

(** Over a list of distinct lines: no line goes off hook, a line that
    was on hook is not touched, and only hook states change. *)
Lemma for_each_hangup_effect (indices : list Z) (s : session) :
  wf s -> NoDup indices -> Forall (fun i => 1 <= i <= MAX_LINES) indices ->
  exists s',
    for_each indices (hangup_line ami) s = Done tt s' /\ wf s' /\
    (forall j, 0 <= j -> j ∉ indices -> line_at s' j = line_at s j) /\
    (forall j, 0 <= j -> exists b,
       line_at s' j = with_offhook b (line_at s j) /\
       (b = true -> offhook_at s j = true)) /\
    ((forall h c, succeeded (ami h (Hangup c 16)) = true) ->
     forall j, j ∈ indices -> offhook_at s' j = false) /\
    ((forall h c, succeeded (ami h (Hangup c 16)) = false) ->
     forall j, 0 <= j -> line_at s' j = line_at s j).
Proof.
  revert s. induction indices as [|i rest IH]; intros s Hwf Hnd Hall.
  - exists s. split; [done|]. split; [done|]. split; [done|]. split; [|split].
    + intros j Hj. exists (offhook_at s j).
      split; [symmetry; by apply with_offhook_eq|done].
    + intros _ j Hj. by apply elem_of_nil in Hj.
    + done.
  - inversion Hnd as [|? ? Hnotin Hnd']; subst.
    inversion Hall as [|? ? Hi Hall']; subst.
    destruct (hangup_line_effect i s Hwf Hi)
      as (s1 & Hrun1 & Hwf1 & Hother1 & Hself1 & _).
    destruct (IH s1 Hwf1 Hnd' Hall')
      as (s2 & Hrun2 & Hwf2 & Hother2 & Hshape2 & Hgood2 & Hbad2).
    exists s2. simpl. unfold bind. rewrite Hrun1.
    split; [done|]. split; [done|]. split; [|split; [|split]].
    + intros j Hj Hnot. rewrite not_elem_of_cons in Hnot.
      destruct Hnot as [Hne Hnr]. rewrite Hother2, Hother1; done.
    + intros j Hj. destruct (Hshape2 j Hj) as (b & Hline & Hb).
      destruct (Z.eq_dec j i) as [->|Hne].
      * exists b. rewrite Hline, Hself1. split; [done|].
        intros Hbt. specialize (Hb Hbt). unfold offhook_at in Hb.
        rewrite Hself1 in Hb. simpl in Hb. by apply andb_true_iff in Hb as [? _].
      * exists b. rewrite Hline, Hother1 by done. split; [done|].
        intros Hbt. specialize (Hb Hbt). unfold offhook_at in *.
        by rewrite Hother1 in Hb.
    + intros Hgood j Hj. apply elem_of_cons in Hj as [->|Hj].
      * unfold offhook_at. rewrite Hother2; [|lia|done].
        rewrite Hself1. simpl. rewrite Hgood. by rewrite andb_false_r.
      * by apply Hgood2.
    + intros Hbad j Hj. rewrite Hbad2 by done.
      destruct (Z.eq_dec j i) as [->|Hne]; [|by apply Hother1].
      rewrite Hself1, Hbad. simpl. rewrite andb_true_r.
      apply with_offhook_same.
Qed.

Lemma hangup_all_effect (s : session) :
  wf s ->
  exists s',
    hangup_all ami s = Done tt s' /\ wf s' /\
    (forall j, 0 <= j -> exists b,
       line_at s' j = with_offhook b (line_at s j) /\
       (b = true -> offhook_at s j = true)) /\
    ((forall h c, succeeded (ami h (Hangup c 16)) = true) ->
     forall j, 1 <= j <= MAX_LINES -> offhook_at s' j = false) /\
    ((forall h c, succeeded (ami h (Hangup c 16)) = false) ->
     forall j, 0 <= j -> line_at s' j = line_at s j).
Proof.
  intros Hwf.
  destruct (for_each_hangup_effect (seqZ 1 MAX_LINES) s Hwf)
    as (s' & Hrun & Hwf' & _ & Hshape & Hgood & Hbad).
  - apply NoDup_seqZ.
  - apply Forall_forall. intros i Hi. apply elem_of_seqZ in Hi. lia.
  - exists s'. repeat split; try done.
    intros Hall j Hj. apply Hgood; [done|]. apply elem_of_seqZ. lia.
Qed.

End HangupEffect.

Lemma lines_ext (s s' : session) :
  wf s -> wf s' ->
  (forall j, 0 <= j -> line_at s' j = line_at s j) -> lines s' = lines s.
Proof.
  intros Hwf Hwf' Hsame. apply list_eq. intros i.
  destruct (decide (i < length (lines s))%nat) as [Hlt|Hge].
  - assert (Hi : 0 <= Z.of_nat i <= MAX_LINES)
      by (unfold wf, MAX_LINES in *; lia).
    pose proof (lookup_line_at s (Z.of_nat i) Hwf Hi) as H1.
    pose proof (lookup_line_at s' (Z.of_nat i) Hwf' Hi) as H2.
    rewrite Nat2Z.id in H1, H2. rewrite H1, H2, Hsame; [done|lia].
  - rewrite !lookup_ge_None_2 by (unfold wf in *; lia). done.
Qed.

Lemma filter_none {A} (f : A -> bool) (l : list A) :
  Forall (fun x => f x = false) l -> List.filter f l = [].
Proof. induction 1 as [|x l Hx _ IH]; simpl; [done|]. by rewrite Hx. Qed.

Section HangupCommand.
Variable ami : list event -> request -> option ami_response.

Lemma hangup_all_command (command : string) (s : session) :
  command = "k" \/ command = "K" ->
  run_command ami command s = (hangup_all ami ;; ret 0) s.
Proof. by intros [-> | ->]. Qed.

(** With every line on hook [hangup_all] does nothing at all. *)
Lemma for_each_hangup_idle (indices : list Z) (s : session) :
  wf s -> Forall (fun i => 1 <= i <= MAX_LINES /\ offhook_at s i = false) indices ->
  for_each indices (hangup_line ami) s = Done tt s.
Proof.
  intros Hwf. induction 1 as [|i rest [Hi Hoff] _ IH]; simpl; [done|].
  unfold bind at 1. unfold hangup_line at 1. unfold bind at 1.
  rewrite get_line_ok by (done || lia).
  fold (offhook_at s i). rewrite Hoff. exact IH.
Qed.

Lemma hangup_all_idle (s : session) :
  wf s -> (forall j, 1 <= j <= MAX_LINES -> offhook_at s j = false) ->
  hangup_all ami s = Done tt s.
Proof.
  intros Hwf Hon. apply for_each_hangup_idle; [done|].
  apply Forall_forall. intros i Hi. apply elem_of_seqZ in Hi.
  split; [lia|]. apply Hon. lia.
Qed.

(** Both descriptions of [hangup_all] at once. *)
Lemma hangup_all_full (s : session) :
  wf s ->
  exists s' new,
    hangup_all ami s = Done tt s' /\ wf s' /\
    log s' = (log s ++ new)%list /\
    requests new =
      map (fun i => Hangup (channel_at s i) 16)
          (List.filter (offhook_at s) (seqZ 1 MAX_LINES)) /\
    (forall j, 0 <= j ->
       line_at s' j = with_offhook (offhook_at s' j) (line_at s j) /\
       (offhook_at s' j = true -> offhook_at s j = true)) /\
    ((forall h c, succeeded (ami h (Hangup c 16)) = true) ->
     forall j, 1 <= j <= MAX_LINES -> offhook_at s' j = false) /\
    ((forall h c, succeeded (ami h (Hangup c 16)) = false) ->
     lines s' = lines s).
Proof.
  intros Hwf.
  destruct (hangup_all_spec ami s Hwf) as (s' & new & Hrun & Hwf' & Hlog & Hreq & _).
  destruct (hangup_all_effect ami s Hwf) as (s2 & Hrun2 & _ & Hshape & Hgood & Hbad).
  rewrite Hrun in Hrun2. injection Hrun2 as <-.
  exists s', new. repeat split; try done.
  - destruct (Hshape j) as (b & Hline & Hb); [done|].
    assert (offhook_at s' j = b) as -> by (unfold offhook_at; by rewrite Hline).
    exact Hline.
  - destruct (Hshape j) as (b & Hline & Hb); [done|].
    assert (offhook_at s' j = b) as -> by (unfold offhook_at; by rewrite Hline).
    exact Hb.
  - intros Hfail. apply lines_ext; [done|done|]. by apply Hbad.
Qed.

End HangupCommand.

(** X1: the global command [k] (or [K]) sends one hangup for every line 1
    to 9 that is off hook, in the order of the lines and on the channel
    of each line, and no other action; afterwards only hook states can
    differ from before, and no line that was on hook is off hook. *)
Theorem X1_k_hangs_up_offhook_lines
    (ami : list event -> request -> option ami_response)
    (command : string) (s : session) :
  wf s -> command = "k" \/ command = "K" ->
  exists s' new,
    run_command ami command s = Done 0 s' /\ wf s' /\
    log s' = (log s ++ new)%list /\
    requests new =
      map (fun i => Hangup (channel_at s i) 16)
          (List.filter (offhook_at s) (seqZ 1 MAX_LINES)) /\
    (forall j, 0 <= j ->
       line_at s' j = with_offhook (offhook_at s' j) (line_at s j) /\
       (offhook_at s' j = true -> offhook_at s j = true)).
Proof.
  intros Hwf Hk.
  destruct (hangup_all_full ami s Hwf)
    as (s' & new & Hrun & Hwf' & Hlog & Hreq & Hshape & _).
  exists s', new. rewrite hangup_all_command by done.
  unfold bind. rewrite Hrun. repeat split; try done; by apply Hshape.
Qed.

Lemma X1_k_hangs_up_offhook_lines_witness :
  exists s' new,
    run_command busy_server "k" line1_offhook = Done 0 s' /\ wf s' /\
    log s' = (log line1_offhook ++ new)%list /\
    requests new =
      map (fun i => Hangup (channel_at line1_offhook i) 16)
          (List.filter (offhook_at line1_offhook) (seqZ 1 MAX_LINES)) /\
    (forall j, 0 <= j ->
       line_at s' j = with_offhook (offhook_at s' j) (line_at line1_offhook j) /\
       (offhook_at s' j = true -> offhook_at line1_offhook j = true)).
Proof.
  apply (X1_k_hangs_up_offhook_lines busy_server "k" line1_offhook).
  - reflexivity.
  - left. reflexivity.
Defined.

(** X2: when the server answers every hangup with success, [k] leaves
    every line 1 to 9 on hook, and a second [k] right after it does
    nothing: it sends no action, prints nothing and changes no line. *)
Theorem X2_k_twice
    (ami : list event -> request -> option ami_response) (s : session) :
  wf s ->
  (forall h c, succeeded (ami h (Hangup c 16)) = true) ->
  exists s1,
    run_command ami "k" s = Done 0 s1 /\
    (forall j, 1 <= j <= MAX_LINES -> offhook_at s1 j = false) /\
    run_command ami "k" s1 = Done 0 s1.
Proof.
  intros Hwf Hgood.
  destruct (hangup_all_full ami s Hwf)
    as (s1 & new1 & Hrun1 & Hwf1 & _ & _ & _ & Hon1 & _).
  specialize (Hon1 Hgood).
  exists s1. rewrite !hangup_all_command by (by left).
  unfold bind. rewrite Hrun1, hangup_all_idle by done. done.
Qed.

Lemma X2_k_twice_witness :
  exists s1,
    run_command busy_server "k" line1_offhook = Done 0 s1 /\
    (forall j, 1 <= j <= MAX_LINES -> offhook_at s1 j = false) /\
    run_command busy_server "k" s1 = Done 0 s1.
Proof.
  apply (X2_k_twice busy_server line1_offhook).
  - reflexivity.
  - intros h c. reflexivity.
Defined.

(** X3: when no hangup is answered with success (no response, or a
    response that reports failure), [k] still sends a hangup for every
    off-hook line, and all the lines are left exactly as they were: a
    line whose hangup failed stays off hook. *)
Theorem X3_k_failed_hangups_keep_lines
    (ami : list event -> request -> option ami_response) (s : session) :
  wf s ->
  (forall h c, succeeded (ami h (Hangup c 16)) = false) ->
  exists s' new,
    run_command ami "k" s = Done 0 s' /\
    lines s' = lines s /\
    log s' = (log s ++ new)%list /\
    requests new =
      map (fun i => Hangup (channel_at s i) 16)
          (List.filter (offhook_at s) (seqZ 1 MAX_LINES)).
Proof.
  intros Hwf Hbad.
  destruct (hangup_all_full ami s Hwf)
    as (s' & new & Hrun & _ & Hlog & Hreq & _ & _ & Hkeep).
  exists s', new. rewrite hangup_all_command by (by left).
  unfold bind. rewrite Hrun. repeat split; try done. by apply Hkeep.
Qed.

(** A server that does not answer. *)
Lemma X3_k_failed_hangups_keep_lines_witness :
  exists s' new,
    run_command silent_server "k" line1_offhook = Done 0 s' /\
    lines s' = lines line1_offhook /\
    log s' = (log line1_offhook ++ new)%list /\
    requests new =
      map (fun i => Hangup (channel_at line1_offhook i) 16)
          (List.filter (offhook_at line1_offhook) (seqZ 1 MAX_LINES)).
Proof.
  apply (X3_k_failed_hangups_keep_lines silent_server line1_offhook).
  - reflexivity.
  - intros h c. reflexivity.
Defined.

(** ** Line commands, verb by verb *)

(** A character that folds to a lowercase letter is not a digit, not
    white space and not the comment sign. *)
Lemma verb_char (v x : ascii) :
  tolower v = x -> is_lower x = true ->
  isdigit v = false /\ isspace v = false /\ Ascii.eqb v ";" = false.
Proof.
  intros <-.
  destruct v as [[] [] [] [] [] [] [] []]; vm_compute; intros H;
    try discriminate H; repeat split.
Qed.

Section Verbs.
Variable ami : list event -> request -> option ami_response.

(** The line number, then a verb character: the switch runs on the verb
    and what follows it, in the session with the derived fields set. *)
Lemma run_line_verb (n : Z) (v : ascii) (tail : string) (s : session) :
  wf s -> 1 <= n <= MAX_LINES ->
  isdigit v = false -> isspace v = false -> Ascii.eqb v ";" = false ->
  run_command ami (line_cmd n (String v tail)) s =
  line_switch ami n (String v (truncate_at ";" tail)) (prepare n s).
Proof.
  intros Hwf Hn Hdigit Hspace Hsemi.
  rewrite run_command_line by done.
  simpl truncate_at. rewrite Hsemi. simpl ltrim. rewrite Hspace.
  by rewrite line_command_ok by (done || lia).
Qed.

Lemma get_prepared (n : Z) (s : session) :
  wf s -> 1 <= n <= MAX_LINES ->
  get_line n (prepare n s) =
  Done {| devicename := device_of n; dialstr := dialstr_of n;
          dialexten := dialexten_const;
          channel := channel_at s n; offhook := offhook_at s n |}
       (prepare n s).
Proof.
  intros Hwf Hn. rewrite get_line_ok by (by apply wf_prepare || lia).
  by rewrite line_at_prepare_same by (done || lia).
Qed.

(** [o] when the originate is not answered with success. *)
Lemma originate_failed (n : Z) (v : ascii) (tail : string) (s : session) :
  wf s -> 1 <= n <= MAX_LINES -> tolower v = "o"%char ->
  succeeded (ami (log s) (originate_req n)) = false ->
  run_command ami (line_cmd n (String v tail)) s =
  Done 0 (logged (prepare n s)
            [EvAction (originate_req n) (ami (log s) (originate_req n));
             EvStderr (match ami (log s) (originate_req n) with
                       | None => "No response" ++ nl
                       | Some _ => "Failed to go off hook on line " ++ fmt_d n ++ nl
                       end)]).
Proof.
  intros Hwf Hn Hv Hfail.
  destruct (verb_char v _ Hv eq_refl) as (Hd & Hs & Hc).
  rewrite run_line_verb by done.
  unfold line_switch. change (deref (String v ?x)) with v. rewrite Hv. simpl.
  unfold bind at 1. rewrite get_prepared by done. simpl.
  unfold bind at 1, ami_action at 1. rewrite log_prepare.
  fold dialexten_const. fold (originate_req n).
  destruct (ami (log s) (originate_req n)) as [r|] eqn:Hami.
  - simpl in Hfail. unfold require_resp, succeeded. rewrite Hfail.
    unfold bind, eprint, emit, logged. simpl. by rewrite <- app_assoc.
  - unfold require_resp, bind, eprint, emit, logged. simpl. by rewrite <- app_assoc.
Qed.

(** [h] on an off-hook line when the hangup is not answered with success. *)
Lemma hangup_failed (n : Z) (v : ascii) (tail : string) (s : session) :
  wf s -> 1 <= n <= MAX_LINES -> tolower v = "h"%char ->
  offhook_at s n = true ->
  succeeded (ami (log s) (Hangup (channel_at s n) 16)) = false ->
  run_command ami (line_cmd n (String v tail)) s =
  Done 0 (logged (prepare n s)
            [EvAction (Hangup (channel_at s n) 16)
               (ami (log s) (Hangup (channel_at s n) 16));
             EvStderr (match ami (log s) (Hangup (channel_at s n) 16) with
                       | None => "No response" ++ nl
                       | Some _ => "Failed to go on hook on line " ++ fmt_d n ++ nl
                       end)]).
Proof.
  intros Hwf Hn Hv Hoff Hfail.
  destruct (verb_char v _ Hv eq_refl) as (Hd & Hs & Hc).
  rewrite run_line_verb by done.
  unfold line_switch. change (deref (String v ?x)) with v. rewrite Hv. simpl.
  unfold require_active. unfold bind at 1. rewrite get_prepared by done.
  simpl. rewrite Hoff.
  unfold bind at 1. rewrite get_prepared by done. simpl.
  unfold bind at 1, ami_action at 1. rewrite log_prepare.
  destruct (ami (log s) (Hangup (channel_at s n) 16)) as [r|] eqn:Hami.
  - simpl in Hfail. unfold require_resp, succeeded. rewrite Hfail.
    unfold bind, eprint, emit, logged. simpl. by rewrite <- app_assoc.
  - unfold require_resp, bind, eprint, emit, logged. simpl. by rewrite <- app_assoc.
Qed.

(** [f] on an off-hook line. *)
Lemma flash_command (n : Z) (v : ascii) (tail : string) (s : session) :
  wf s -> 1 <= n <= MAX_LINES -> tolower v = "f"%char ->
  offhook_at s n = true ->
  run_command ami (line_cmd n (String v tail)) s =
  Done 0 (logged (prepare n s)
            [EvAction (SendFlash (channel_at s n))
               (ami (log s) (SendFlash (channel_at s n)));
             EvStderr (match ami (log s) (SendFlash (channel_at s n)) with
                       | None => "No response" ++ nl
                       | Some r =>
                           if success r then "OK" ++ nl
                           else "Failed to send flash on line " ++ fmt_d n ++ nl
                       end)]).
Proof.
  intros Hwf Hn Hv Hoff.
  destruct (verb_char v _ Hv eq_refl) as (Hd & Hs & Hc).
  rewrite run_line_verb by done.
  unfold line_switch. change (deref (String v ?x)) with v. rewrite Hv. simpl.
  unfold require_active. unfold bind at 1. rewrite get_prepared by done.
  simpl. rewrite Hoff.
  unfold bind at 1. rewrite get_prepared by done. simpl.
  unfold bind at 1, ami_action at 1. rewrite log_prepare.
  destruct (ami (log s) (SendFlash (channel_at s n))) as [r|] eqn:Hami.
  - unfold require_resp, succeeded. destruct (success r);
      unfold bind, eprint, emit, logged; simpl; by rewrite <- app_assoc.
  - unfold require_resp, bind, eprint, emit, logged. simpl. by rewrite <- app_assoc.
Qed.

End Verbs.

Lemma frame_prepare_logged (n : Z) (s : session) (new : list event) :
  wf s -> 1 <= n <= MAX_LINES ->
  forall j, 0 <= j ->
    offhook_at (logged (prepare n s) new) j = offhook_at s j /\
    channel_at (logged (prepare n s) new) j = channel_at s j.
Proof.
  intros Hwf Hn j Hj. unfold offhook_at, channel_at. rewrite line_at_logged.
  apply hook_and_channel_prepare; (done || lia).
Qed.

(** X4: for every line 1 to 9, when the originate of [o] gets no response
    or a response that reports failure, the command prints the reason
    (No response, or Failed to go off hook on line n), does not query
    the channels, changes no hook state and no channel id, and returns
    0. *)
Theorem X4_failed_originate_changes_nothing
    (ami : list event -> request -> option ami_response)
    (n : Z) (v : ascii) (tail : string) (s : session) :
  wf s -> 1 <= n <= MAX_LINES -> tolower v = "o"%char ->
  succeeded (ami (log s) (originate_req n)) = false ->
  exists s',
    run_command ami (line_cmd n (String v tail)) s = Done 0 s' /\
    log s' =
      (log s ++
       [EvAction (originate_req n) (ami (log s) (originate_req n));
        EvStderr (match ami (log s) (originate_req n) with
                  | None => "No response" ++ nl
                  | Some _ => "Failed to go off hook on line " ++ fmt_d n ++ nl
                  end)])%list /\
    (forall j, 0 <= j ->
       offhook_at s' j = offhook_at s j /\ channel_at s' j = channel_at s j).
Proof.
  intros Hwf Hn Hv Hfail. eexists.
  split; [by apply originate_failed|]. split; [done|].
  by apply frame_prepare_logged.
Qed.

Lemma X4_failed_originate_changes_nothing_witness :
  exists s',
    run_command refusing_server (line_cmd 4 (String "O" EmptyString)) initial_session
      = Done 0 s' /\
    log s' =
      (log initial_session ++
       [EvAction (originate_req 4) (refusing_server (log initial_session) (originate_req 4));
        EvStderr (match refusing_server (log initial_session) (originate_req 4) with
                  | None => "No response" ++ nl
                  | Some _ => "Failed to go off hook on line " ++ fmt_d 4 ++ nl
                  end)])%list /\
    (forall j, 0 <= j ->
       offhook_at s' j = offhook_at initial_session j /\
       channel_at s' j = channel_at initial_session j).
Proof.
  apply (X4_failed_originate_changes_nothing refusing_server 4 "O" EmptyString
           initial_session).
  - reflexivity.
  - unfold MAX_LINES. lia.
  - reflexivity.
  - reflexivity.
Defined.

(** X5: for every line 1 to 9 that is off hook, when the hangup of [h]
    gets no response or a response that reports failure, the command
    prints the reason and the line stays off hook with its channel id;
    no other line changes. *)
Theorem X5_failed_hangup_stays_offhook
    (ami : list event -> request -> option ami_response)
    (n : Z) (v : ascii) (tail : string) (s : session) :
  wf s -> 1 <= n <= MAX_LINES -> tolower v = "h"%char ->
  offhook_at s n = true ->
  succeeded (ami (log s) (Hangup (channel_at s n) 16)) = false ->
  exists s',
    run_command ami (line_cmd n (String v tail)) s = Done 0 s' /\
    log s' =
      (log s ++
       [EvAction (Hangup (channel_at s n) 16)
          (ami (log s) (Hangup (channel_at s n) 16));
        EvStderr (match ami (log s) (Hangup (channel_at s n) 16) with
                  | None => "No response" ++ nl
                  | Some _ => "Failed to go on hook on line " ++ fmt_d n ++ nl
                  end)])%list /\
    offhook_at s' n = true /\
    (forall j, 0 <= j ->
       offhook_at s' j = offhook_at s j /\ channel_at s' j = channel_at s j).
Proof.
  intros Hwf Hn Hv Hoff Hfail. eexists.
  split; [by apply hangup_failed|]. split; [done|].
  split; [|by apply frame_prepare_logged].
  destruct (frame_prepare_logged n s
    [EvAction (Hangup (channel_at s n) 16) (ami (log s) (Hangup (channel_at s n) 16));
     EvStderr (match ami (log s) (Hangup (channel_at s n) 16) with
               | None => "No response" ++ nl
               | Some _ => "Failed to go on hook on line " ++ fmt_d n ++ nl
               end)] Hwf Hn n) as [-> _]; [lia|done].
Qed.

Lemma X5_failed_hangup_stays_offhook_witness :
  exists s',
    run_command silent_server (line_cmd 1 (String "h" EmptyString)) line1_offhook
      = Done 0 s' /\
    log s' =
      (log line1_offhook ++
       [EvAction (Hangup (channel_at line1_offhook 1) 16)
          (silent_server (log line1_offhook) (Hangup (channel_at line1_offhook 1) 16));
        EvStderr (match silent_server (log line1_offhook)
                          (Hangup (channel_at line1_offhook 1) 16) with
                  | None => "No response" ++ nl
                  | Some _ => "Failed to go on hook on line " ++ fmt_d 1 ++ nl
                  end)])%list /\
    offhook_at s' 1 = true /\
    (forall j, 0 <= j ->
       offhook_at s' j = offhook_at line1_offhook j /\
       channel_at s' j = channel_at line1_offhook j).
Proof.
  apply (X5_failed_hangup_stays_offhook silent_server 1 "h" EmptyString line1_offhook).
  - reflexivity.
  - unfold MAX_LINES. lia.
  - reflexivity.
  - reflexivity.
  - reflexivity.
Defined.

(** X6: for every line 1 to 9 that is off hook, [f] sends exactly one
    [SendFlash] on the channel of the line and prints OK, No response or
    the failure message by the answer; whatever the answer, no hook
    state and no channel id changes. *)
Theorem X6_flash_sends_one_action
    (ami : list event -> request -> option ami_response)
    (n : Z) (v : ascii) (tail : string) (s : session) :
  wf s -> 1 <= n <= MAX_LINES -> tolower v = "f"%char ->
  offhook_at s n = true ->
  exists s',
    run_command ami (line_cmd n (String v tail)) s = Done 0 s' /\
    log s' =
      (log s ++
       [EvAction (SendFlash (channel_at s n))
          (ami (log s) (SendFlash (channel_at s n)));
        EvStderr (match ami (log s) (SendFlash (channel_at s n)) with
                  | None => "No response" ++ nl
                  | Some r =>
                      if success r then "OK" ++ nl
                      else "Failed to send flash on line " ++ fmt_d n ++ nl
                  end)])%list /\
    (forall j, 0 <= j ->
       offhook_at s' j = offhook_at s j /\ channel_at s' j = channel_at s j).
Proof.
  intros Hwf Hn Hv Hoff. eexists.
  split; [by apply flash_command|]. split; [done|].
  by apply frame_prepare_logged.
Qed.

Lemma X6_flash_sends_one_action_witness :
  exists s',
    run_command busy_server (line_cmd 1 (String "F" EmptyString)) line1_offhook
      = Done 0 s' /\
    log s' =
      (log line1_offhook ++
       [EvAction (SendFlash (channel_at line1_offhook 1))
          (busy_server (log line1_offhook) (SendFlash (channel_at line1_offhook 1)));
        EvStderr (match busy_server (log line1_offhook)
                          (SendFlash (channel_at line1_offhook 1)) with
                  | None => "No response" ++ nl
                  | Some r =>
                      if success r then "OK" ++ nl
                      else "Failed to send flash on line " ++ fmt_d 1 ++ nl
                  end)])%list /\
    (forall j, 0 <= j ->
       offhook_at s' j = offhook_at line1_offhook j /\
       channel_at s' j = channel_at line1_offhook j).
Proof.
  apply (X6_flash_sends_one_action busy_server 1 "F" EmptyString line1_offhook).
  - reflexivity.
  - unfold MAX_LINES. lia.
  - reflexivity.
  - reflexivity.
Defined.

Section Originate.
Variable ami : list event -> request -> option ami_response.

(** [o] in either case and with anything after it, answered with
    success: the line goes off hook, then the resolver runs. *)
Lemma originate_verb (n : Z) (v : ascii) (tail : string) (s : session)
    (r : ami_response) :
  wf s -> 1 <= n <= MAX_LINES -> tolower v = "o"%char ->
  ami (log s) (originate_req n) = Some r -> success r = true ->
  run_command ami (line_cmd n (String v tail)) s =
  (res <- find_channel ami n ;;
   (if res =? 0 then eprint ("OK" ++ nl) else ret tt) ;; ret 0)
    (gone_offhook n s r).
Proof.
  intros Hwf Hn Hv Hami Hok.
  destruct (verb_char v _ Hv eq_refl) as (Hd & Hs & Hc).
  rewrite run_line_verb by done.
  unfold line_switch. change (deref (String v ?x)) with v. rewrite Hv. simpl.
  unfold bind at 1. rewrite get_prepared by done. simpl.
  unfold bind at 1, ami_action at 1. rewrite log_prepare.
  fold dialexten_const. fold (originate_req n). rewrite Hami.
  unfold require_resp, succeeded. rewrite Hok.
  change {| lines := lines (prepare n s);
            log := (log s ++ [EvAction (originate_req n) (Some r)])%list |}
    with (logged (prepare n s) [EvAction (originate_req n) (Some r)]).
  unfold bind at 1. unfold bind at 1.
  rewrite set_line_ok; [|by apply wf_logged, wf_prepare|lia].
  fold (gone_offhook n s r).
  unfold bind.
  destruct (find_channel ami n (gone_offhook n s r)) as [res s'|f]; [|done].
  by destruct (res =? 0).
Qed.

End Originate.

(** X7: for every line 1 to 9, [o] whose originate succeeds, followed by
    a channel listing in which some listed channel starts with the
    device name of the line, leaves the line off hook with the first
    such channel stored (through [strncpy], at most 127 characters),
    prints OK, sends exactly the originate and the channel query, and
    changes no other line. *)
Theorem X7_originate_binds_first_channel
    (ami : list event -> request -> option ami_response)
    (n : Z) (v : ascii) (tail : string) (s : session)
    (r listing : ami_response) (header footer e : ami_event)
    (pre post : list ami_event) (chan : string) :
  wf s -> 1 <= n <= MAX_LINES -> tolower v = "o"%char ->
  ami (log s) (originate_req n) = Some r -> success r = true ->
  ami (log s ++ [EvAction (originate_req n) (Some r)])%list CoreShowChannels
    = Some listing ->
  events listing = (header :: (pre ++ e :: post) ++ [footer])%list ->
  Forall (other_channel (device_of n)) pre ->
  channel_of e = Some chan ->
  String.prefix (device_of n) chan = true ->
  exists s',
    run_command ami (line_cmd n (String v tail)) s = Done 0 s' /\
    offhook_at s' n = true /\
    channel_at s' n = strncpy chan 127 /\
    log s' =
      (log s ++ [EvAction (originate_req n) (Some r);
                 EvAction CoreShowChannels (Some listing);
                 EvStderr ("OK" ++ nl)])%list /\
    (forall j, 0 <= j -> j <> n -> line_at s' j = line_at s j).
Proof.
  intros Hwf Hn Hv Hami Hok Hlist Hev Hpre Hchan Hmatch.
  destruct (gone_offhook_facts n s r Hwf Hn) as (Hwf0 & Hlog0 & Hline0).
  apply inner_events_framed in Hev.
  set (s1 := logged (gone_offhook n s r) [EvAction CoreShowChannels (Some listing)]).
  assert (Hwf1 : wf s1) by by apply wf_logged.
  assert (Hrun : run_command ami (line_cmd n (String v tail)) s =
                 Done 0 (logged (update_line n (with_channel (strncpy chan 127)) s1)
                           [EvStderr ("OK" ++ nl)])).
  { rewrite (originate_verb ami n v tail s r) by done.
    unfold bind at 1.
    rewrite (find_channel_match ami n _ listing pre post e chan);
      [|done|lia|by rewrite Hlog0|done|by rewrite Hline0|done|by rewrite Hline0].
    reflexivity. }
  eexists. split; [exact Hrun|].
  unfold offhook_at, channel_at. rewrite !line_at_logged.
  rewrite !line_at_update_same by (done || lia).
  unfold s1. rewrite line_at_logged, Hline0. simpl.
  split; [done|]. split; [done|]. split.
  - by rewrite <- !app_assoc.
  - intros j Hj Hne. rewrite line_at_logged.
    rewrite line_at_update_other by (lia || done).
    rewrite line_at_logged. unfold gone_offhook.
    rewrite line_at_update_other by (lia || done).
    rewrite line_at_logged. apply line_at_prepare_other; (lia || done).
Qed.

Lemma X7_originate_binds_first_channel_witness :
  exists s',
    run_command busy_server (line_cmd 1 (String "o" EmptyString)) initial_session
      = Done 0 s' /\
    offhook_at s' 1 = true /\
    channel_at s' 1 = strncpy "PJSIP/autotest1-00000001" 127 /\
    log s' =
      (log initial_session ++
       [EvAction (originate_req 1) (Some plain_ok);
        EvAction CoreShowChannels
          (Some (channel_list ["PJSIP/other-00000007"; "PJSIP/autotest1-00000001"]));
        EvStderr ("OK" ++ nl)])%list /\
    (forall j, 0 <= j -> j <> 1 -> line_at s' j = line_at initial_session j).
Proof.
  apply (X7_originate_binds_first_channel busy_server 1 "o" EmptyString
           initial_session plain_ok
           (channel_list ["PJSIP/other-00000007"; "PJSIP/autotest1-00000001"])
           [("Response", "Success")] [("Event", "CoreShowChannelsComplete")]
           (channel_event "PJSIP/autotest1-00000001")
           [channel_event "PJSIP/other-00000007"] []
           "PJSIP/autotest1-00000001").
  - reflexivity.
  - unfold MAX_LINES. lia.
  - reflexivity.
  - reflexivity.
  - reflexivity.
  - reflexivity.
  - reflexivity.
  - repeat constructor. eexists. split; reflexivity.
  - reflexivity.
  - reflexivity.
Defined.

(** X8: [find_channel] never looks at the first and the last event of
    the listing: a response with at most two events yields no channel,
    whatever these events contain.  The function prints that it found no
    channel for the device, returns -1 and leaves every line as it
    was. *)
Theorem X8_short_listing_has_no_channel
    (ami : list event -> request -> option ami_response)
    (n : Z) (s : session) (listing : ami_response) :
  wf s -> 1 <= n <= MAX_LINES ->
  ami (log s) CoreShowChannels = Some listing ->
  (length (events listing) <= 2)%nat ->
  find_channel ami n s =
  Done (-1) (logged s [EvAction CoreShowChannels (Some listing);
                       EvStderr ("Failed to find channel for "
                                 ++ devicename (line_at s n) ++ nl)]).
Proof.
  intros Hwf Hn Hami Hlen.
  apply find_channel_no_match; [done|lia|done|].
  unfold inner_events.
  replace (length (events listing) - 2)%nat with 0%nat by lia.
  rewrite take_0. constructor.
Qed.

(** A listing whose only two events both name a channel of line 1. *)
Lemma X8_short_listing_has_no_channel_witness :
  find_channel
    (fun _ _ => Some {| success := true;
                        events := [channel_event "PJSIP/autotest1-00000001";
                                   channel_event "PJSIP/autotest1-00000002"] |})
    1 (prepare 1 initial_session) =
  Done (-1)
    (logged (prepare 1 initial_session)
       [EvAction CoreShowChannels
          (Some {| success := true;
                   events := [channel_event "PJSIP/autotest1-00000001";
                              channel_event "PJSIP/autotest1-00000002"] |});
        EvStderr ("Failed to find channel for "
                  ++ devicename (line_at (prepare 1 initial_session) 1) ++ nl)]).
Proof.
  apply (X8_short_listing_has_no_channel _ 1 (prepare 1 initial_session)).
  - reflexivity.
  - unfold MAX_LINES. lia.
  - reflexivity.
  - simpl. lia.
Defined.

Section OtherVerbs.
Variable ami : list event -> request -> option ami_response.

Lemma unknown_verb (n : Z) (v : ascii) (tail : string) (s : session) :
  wf s -> 1 <= n <= MAX_LINES ->
  isdigit v = false -> isspace v = false -> v <> ";"%char ->
  tolower v <> "a"%char -> tolower v <> "o"%char -> tolower v <> "h"%char ->
  tolower v <> "f"%char -> tolower v <> "d"%char ->
  run_command ami (line_cmd n (String v tail)) s =
  Done 0 (logged (prepare n s)
            [EvStderr ("Unknown line command '" ++ fmt_c v ++ "'" ++ nl)]).
Proof.
  intros Hwf Hn Hd Hs Hc Ha Ho Hh Hf Hdial.
  apply Ascii.eqb_neq in Hc, Ha, Ho, Hh, Hf, Hdial.
  rewrite run_line_verb by done.
  unfold line_switch. change (deref (String v ?x)) with v.
  cbv zeta. rewrite Ha, Ho, Hh, Hf, Hdial. reflexivity.
Qed.

Lemma answer_verb (n : Z) (v : ascii) (tail : string) (s : session) :
  wf s -> 1 <= n <= MAX_LINES -> tolower v = "a"%char ->
  run_command ami (line_cmd n (String v tail)) s =
  Done 0 (logged (prepare n s) [EvStderr ("XXX Not implemented yet" ++ nl)]).
Proof.
  intros Hwf Hn Hv.
  destruct (verb_char v _ Hv eq_refl) as (Hd & Hs & Hc).
  rewrite run_line_verb by done.
  unfold line_switch. change (deref (String v ?x)) with v.
  cbv zeta. rewrite Hv. reflexivity.
Qed.

End OtherVerbs.

(** X9: for every line 1 to 9, a verb character that does not fold to
    [a], [o], [h], [f] or [d] (for instance [p], which the help text
    lists as playing an audio file) only prints Unknown line command
    with the character as typed; the verb [a] only prints that it is
    not implemented.  In both cases no action is sent, no hook state and
    no channel id changes, and the command returns 0. *)
Theorem X9_verbs_without_action
    (ami : list event -> request -> option ami_response)
    (n : Z) (v a : ascii) (tail : string) (s : session) :
  wf s -> 1 <= n <= MAX_LINES ->
  isdigit v = false -> isspace v = false -> v <> ";"%char ->
  tolower v <> "a"%char -> tolower v <> "o"%char -> tolower v <> "h"%char ->
  tolower v <> "f"%char -> tolower v <> "d"%char ->
  tolower a = "a"%char ->
  exists s1 s2,
    run_command ami (line_cmd n (String v tail)) s = Done 0 s1 /\
    log s1 = (log s ++ [EvStderr ("Unknown line command '" ++ fmt_c v ++ "'" ++ nl)])%list /\
    run_command ami (line_cmd n (String a tail)) s = Done 0 s2 /\
    log s2 = (log s ++ [EvStderr ("XXX Not implemented yet" ++ nl)])%list /\
    (forall j, 0 <= j ->
       offhook_at s1 j = offhook_at s j /\ channel_at s1 j = channel_at s j /\
       offhook_at s2 j = offhook_at s j /\ channel_at s2 j = channel_at s j).
Proof.
  intros Hwf Hn Hd Hs Hc Hna Hno Hnh Hnf Hnd Ha.
  eexists _, _. split; [by apply unknown_verb|]. split; [done|].
  split; [by apply answer_verb|]. split; [done|].
  intros j Hj.
  destruct (frame_prepare_logged n s
              [EvStderr ("Unknown line command '" ++ fmt_c v ++ "'" ++ nl)] Hwf Hn j Hj)
    as [H1 H2].
  destruct (frame_prepare_logged n s
              [EvStderr ("XXX Not implemented yet" ++ nl)] Hwf Hn j Hj)
    as [H3 H4].
  done.
Qed.

(** ["1p custom/beep"], the example of the help text, and ["3a"]. *)
Lemma X9_verbs_without_action_witness :
  exists s1 s2,
    run_command busy_server (line_cmd 1 (String "p" " custom/beep")) line1_offhook
      = Done 0 s1 /\
    log s1 = (log line1_offhook
              ++ [EvStderr ("Unknown line command '" ++ fmt_c "p" ++ "'" ++ nl)])%list /\
    run_command busy_server (line_cmd 1 (String "a" " custom/beep")) line1_offhook
      = Done 0 s2 /\
    log s2 = (log line1_offhook ++ [EvStderr ("XXX Not implemented yet" ++ nl)])%list /\
    (forall j, 0 <= j ->
       offhook_at s1 j = offhook_at line1_offhook j /\
       channel_at s1 j = channel_at line1_offhook j /\
       offhook_at s2 j = offhook_at line1_offhook j /\
       channel_at s2 j = channel_at line1_offhook j).
Proof.
  apply (X9_verbs_without_action busy_server 1 "p" "a" " custom/beep" line1_offhook);
    try reflexivity; try discriminate.
  unfold MAX_LINES. lia.
Defined.

(** ** No fault on a line number in range *)

Lemma frame_refl (n : Z) (s : session) : wf s -> frame n s s.
Proof. intros Hwf. repeat split; done. Qed.

Lemma frame_trans (n : Z) (s1 s2 s3 : session) :
  frame n s1 s2 -> frame n s2 s3 -> frame n s1 s3.
Proof.
  intros (Hwf2 & Ho2 & Hd2 & Hs2 & He2) (Hwf3 & Ho3 & Hd3 & Hs3 & He3).
  split; [done|]. split.
  - intros j Hj Hne. rewrite Ho3, Ho2; done.
  - repeat split; congruence.
Qed.

Lemma frame_logged (n : Z) (s : session) (new : list event) :
  wf s -> frame n s (logged s new).
Proof. intros Hwf. repeat split; done. Qed.

Lemma frame_same_lines (n : Z) (s s' : session) :
  wf s -> lines s' = lines s -> frame n s s'.
Proof.
  intros Hwf Hl. unfold frame, wf, line_at. rewrite Hl. repeat split; done.
Qed.

Lemma frame_emit (n : Z) (s : session) (e : list event) :
  wf s -> frame n s {| lines := lines s; log := (log s ++ e)%list |}.
Proof. apply frame_logged. Qed.

Lemma frame_offhook (n : Z) (s : session) (b : bool) :
  wf s -> 1 <= n <= MAX_LINES -> frame n s (update_line n (with_offhook b) s).
Proof.
  intros Hwf Hn. split; [by apply wf_update_line|]. split.
  - intros j Hj Hne. apply line_at_update_other; (lia || done).
  - rewrite line_at_update_same by (done || lia). repeat split; done.
Qed.

Lemma frame_channel (n : Z) (s : session) (c : string) :
  wf s -> 1 <= n <= MAX_LINES -> frame n s (update_line n (with_channel c) s).
Proof.
  intros Hwf Hn. split; [by apply wf_update_line|]. split.
  - intros j Hj Hne. apply line_at_update_other; (lia || done).
  - rewrite line_at_update_same by (done || lia). repeat split; done.
Qed.

Lemma frame_wf (n : Z) (s s' : session) : frame n s s' -> wf s'.
Proof. by intros [? _]. Qed.

Section Safety.
Variable ami : list event -> request -> option ami_response.
Hypothesis listings : forall h, listable (ami h CoreShowChannels).

Lemma find_channel_frame (n : Z) (s : session) :
  wf s -> 1 <= n <= MAX_LINES ->
  exists res s', find_channel ami n s = Done res s' /\ frame n s s'.
Proof.
  intros Hwf Hn. pose proof (listings (log s)) as Hlist.
  destruct (ami (log s) CoreShowChannels) as [r|] eqn:Hami; simpl in Hlist.
  - unfold find_channel, bind, ami_action.
    rewrite get_line_ok by (done || lia). rewrite Hami.
    set (s0 := {| lines := lines s;
                  log := (log s ++ [EvAction CoreShowChannels (Some r)])%list |}).
    assert (Hf0 : frame n s s0) by by apply frame_emit.
    assert (Hwf0 : wf s0) by done.
    destruct (scan_channels_total (devicename (line_at s n)) (inner_events r) s0 Hlist)
      as [found Hscan].
    rewrite Hscan. destruct found as [chan|].
    + rewrite set_line_ok by (done || lia).
      eexists _, _. split; [reflexivity|].
      eapply frame_trans; [exact Hf0|].
      apply frame_channel; [done|done].
    + rewrite get_line_ok by (done || lia).
      eexists _, _. split; [reflexivity|].
      by apply frame_same_lines.
  - rewrite find_channel_no_response by (done || lia).
    eexists _, _. split; [reflexivity|]. by apply frame_logged.
Qed.

Lemma play_digits_frame (n : Z) (digits : string) (s : session) :
  wf s -> 1 <= n <= MAX_LINES ->
  exists s', play_digits ami n digits s = Done tt s' /\ frame n s s'.
Proof.
  intros Hwf Hn.
  destruct (play_digits_spec ami n digits s Hwf Hn) as (new & Hrun & _).
  eexists. split; [exact Hrun|]. by apply frame_logged.
Qed.

(** The switch of a line command, on a line in range: it returns 0, and
    the session it leaves differs from the one it found only in the log
    and in the hook state and channel id of that line. *)
Lemma line_switch_frame (n : Z) (command : string) (s : session) :
  wf s -> 1 <= n <= MAX_LINES ->
  exists s', line_switch ami n command s = Done 0 s' /\ frame n s s'.
Proof.
  intros Hwf Hn.
  assert (Hget : get_line n s = Done (line_at s n) s)
    by (apply get_line_ok; (done || lia)).
  unfold line_switch. cbv zeta.
  destruct (Ascii.eqb (tolower (deref command)) "a").
  { eexists. split; [reflexivity|]. by apply frame_same_lines. }
  destruct (Ascii.eqb (tolower (deref command)) "o").
  { unfold bind at 1. rewrite Hget. unfold bind at 1, ami_action at 1.
    set (req := Originate _ _ _ _).
    set (s0 := {| lines := lines s; log := (log s ++ [EvAction req (ami (log s) req)])%list |}).
    assert (Hf0 : frame n s s0) by by apply frame_emit.
    assert (Hwf0 : wf s0) by done.
    destruct (ami (log s) req) as [r|].
    - unfold require_resp, succeeded. destruct (success r).
      + unfold bind at 1. unfold bind at 1.
        rewrite set_line_ok by (done || lia).
        assert (Hf1 : frame n s (update_line n (with_offhook true) s0)).
        { eapply frame_trans; [exact Hf0|].
          apply frame_offhook; [done|done]. }
        destruct (find_channel_frame n (update_line n (with_offhook true) s0))
          as (res & s2 & Hfind & Hf2); [by apply wf_update_line|done|].
        unfold bind at 1. rewrite Hfind.
        destruct (res =? 0).
        * eexists. split; [reflexivity|].
          eapply frame_trans; [exact Hf1|]. eapply frame_trans; [exact Hf2|].
          apply frame_same_lines; [by apply (frame_wf n (update_line n (with_offhook true) s0))|done].
        * eexists. split; [reflexivity|].
          eapply frame_trans; [exact Hf1|]. exact Hf2.
      + eexists. split; [reflexivity|].
        by apply frame_same_lines.
    - eexists. split; [reflexivity|].
      by apply frame_same_lines. }
  destruct (Ascii.eqb (tolower (deref command)) "h").
  { unfold require_active. unfold bind at 1. rewrite Hget.
    destruct (offhook (line_at s n)).
    - unfold bind at 1. rewrite Hget. unfold bind at 1, ami_action at 1.
      set (req := Hangup _ _).
      set (s0 := {| lines := lines s; log := (log s ++ [EvAction req (ami (log s) req)])%list |}).
      assert (Hf0 : frame n s s0) by by apply frame_emit.
      assert (Hwf0 : wf s0) by done.
      destruct (ami (log s) req) as [r|].
      + unfold require_resp, succeeded. destruct (success r).
        * unfold bind at 1. unfold bind at 1.
          rewrite set_line_ok by (done || lia).
          eexists. split; [reflexivity|].
          eapply frame_trans; [exact Hf0|].
          eapply frame_trans; [apply frame_offhook; [done|done]|].
          apply frame_same_lines; [by apply wf_update_line|done].
        * eexists. split; [reflexivity|].
          by apply frame_same_lines.
      + eexists. split; [reflexivity|].
        by apply frame_same_lines.
    - eexists. split; [reflexivity|]. by apply frame_same_lines. }
  destruct (Ascii.eqb (tolower (deref command)) "f").
  { unfold require_active. unfold bind at 1. rewrite Hget.
    destruct (offhook (line_at s n)).
    - unfold bind at 1. rewrite Hget. unfold bind at 1, ami_action at 1.
      set (req := SendFlash _).
      set (s0 := {| lines := lines s; log := (log s ++ [EvAction req (ami (log s) req)])%list |}).
      assert (Hf0 : frame n s s0) by by apply frame_emit.
      assert (Hwf0 : wf s0) by done.
      destruct (ami (log s) req) as [r|].
      + unfold require_resp, succeeded. destruct (success r);
          (eexists; split; [reflexivity|]; by apply frame_same_lines).
      + eexists. split; [reflexivity|].
        by apply frame_same_lines.
    - eexists. split; [reflexivity|]. by apply frame_same_lines. }
  destruct (Ascii.eqb (tolower (deref command)) "d").
  { unfold require_active. unfold bind at 1. rewrite Hget.
    destruct (offhook (line_at s n)).
    - destruct (Ascii.eqb (deref (advance command)) "t").
      + destruct (play_digits_frame n (advance (advance command)) s Hwf Hn)
          as (s' & Hplay & Hf).
        unfold bind. rewrite Hplay. eexists. split; [reflexivity|]. exact Hf.
      + destruct (Ascii.eqb (deref (advance command)) "p");
          (eexists; split; [reflexivity|]; by apply frame_same_lines).
    - eexists. split; [reflexivity|]. by apply frame_same_lines. }
  eexists. split; [reflexivity|]. by apply frame_same_lines.
Qed.

End Safety.

Lemma strcasecmp_q (c : string) :
  strcasecmp_eq c "q" = true <-> c = "q" \/ c = "Q".
Proof.
  split.
  - destruct c as [|x [|y rest]]; simpl; [done| |by rewrite andb_false_r].
    rewrite andb_true_r.
    destruct x as [[] [] [] [] [] [] [] []]; vm_compute; intros H;
      try discriminate H; tauto.
  - by intros [-> | ->].
Qed.

Section RunCommandSafety.
Variable ami : list event -> request -> option ami_response.
Hypothesis listings : forall h, listable (ami h CoreShowChannels).

Lemma global_command_outcome (c : string) (s : session) :
  wf s ->
  exists r s',
    global_command ami c s = Done r s' /\ wf s' /\
    ((r = -1 /\ s' = s /\ (c = "q" \/ c = "Q")) \/
     (r = 0 /\ c <> "q" /\ c <> "Q")).
Proof.
  intros Hwf. unfold global_command.
  destruct (Ascii.eqb (deref c) "s") eqn:Hs.
  { eexists _, _. split; [reflexivity|]. split; [done|]. right.
    split; [done|]. split; intros ->; discriminate Hs. }
  destruct (strncasecmp_eq c "ms" 2) eqn:Hms.
  { eexists _, _. split; [reflexivity|]. split; [done|]. right.
    split; [done|]. split; intros ->; discriminate Hms. }
  destruct (strcasecmp_eq c "q") eqn:Hq.
  { eexists _, _. split; [reflexivity|]. split; [done|]. left.
    split; [done|]. split; [done|]. by apply strcasecmp_q. }
  assert (Hnq : c <> "q" /\ c <> "Q")
    by (split; intros ->; discriminate Hq).
  destruct (strcasecmp_eq c "k").
  { destruct (hangup_all_spec ami s Hwf) as (s' & new & Hrun & Hwf' & _).
    exists 0, s'. unfold bind. rewrite Hrun. split; [done|]. split; [done|].
    by right. }
  eexists _, _. split; [reflexivity|]. split; [done|]. by right.
Qed.

Lemma line_command_frame (n : Z) (command : string) (s : session) :
  wf s -> 1 <= n <= MAX_LINES ->
  exists s',
    line_command ami n command s = Done 0 s' /\ wf s' /\
    (forall j, 0 <= j -> j <> n -> line_at s' j = line_at s j) /\
    devicename (line_at s' n) = device_of n /\
    dialstr (line_at s' n) = dialstr_of n /\
    dialexten (line_at s' n) = dialexten_const.
Proof.
  intros Hwf Hn. rewrite line_command_ok by (done || lia).
  destruct (line_switch_frame ami listings n command (prepare n s))
    as (s' & Hrun & Hwf' & Hother & Hdev & Hdial & Hext);
    [by apply wf_prepare|done|].
  exists s'. split; [done|]. split; [done|].
  rewrite line_at_prepare_same in Hdev, Hdial, Hext by (done || lia).
  repeat split; try done.
  intros j Hj Hne. rewrite Hother by done.
  apply line_at_prepare_other; (lia || done).
Qed.

End RunCommandSafety.

(** X10: on a session whose array has its [MAX_LINES + 1] lines, and with
    channel listings whose events all carry a channel, [run_command]
    ends without a fault on every input line that does not start with a
    digit, and on every one whose number is 0 to 9.  It keeps the array
    at its length, and it returns -1 exactly when the line, cut at the
    comment sign, is [q] or [Q], in which case it changes nothing; on
    every other line it returns 0. *)
Theorem X10_run_command_in_range_never_faults
    (ami : list event -> request -> option ami_response)
    (command : string) (s : session) :
  wf s ->
  (forall h, listable (ami h CoreShowChannels)) ->
  (isdigit (deref (truncate_at ";" command)) = true ->
   0 <= atoi (truncate_at ";" command) <= MAX_LINES) ->
  exists r s',
    run_command ami command s = Done r s' /\ wf s' /\
    ((r = -1 /\ s' = s /\
      (truncate_at ";" command = "q" \/ truncate_at ";" command = "Q")) \/
     (r = 0 /\ truncate_at ";" command <> "q" /\ truncate_at ";" command <> "Q")).
Proof.
  intros Hwf Hlist Hrange. unfold run_command. cbv zeta.
  destruct (isdigit (deref (truncate_at ";" command))) eqn:Hdigit.
  - specialize (Hrange eq_refl).
    assert (Hnq : truncate_at ";" command <> "q" /\ truncate_at ";" command <> "Q")
      by (split; intros Heq; rewrite Heq in Hdigit; discriminate Hdigit).
    destruct (Z.eqb_spec (atoi (truncate_at ";" command)) 0) as [Hz|Hnz].
    + eexists _, _. split; [reflexivity|]. split; [done|]. by right.
    + destruct (line_command_frame ami Hlist (atoi (truncate_at ";" command))
                  (ltrim (advance (truncate_at ";" command))) s)
        as (s' & Hrun & Hwf' & _); [done|lia|].
      exists 0, s'. split; [done|]. split; [done|]. by right.
  - by apply global_command_outcome.
Qed.

Lemma busy_server_listings (h : list event) : listable (busy_server h CoreShowChannels).
Proof. vm_compute. repeat constructor; by eexists. Qed.

Lemma X10_run_command_in_range_never_faults_witness :
  exists r s',
    run_command busy_server "3 dt12 ; dial" line1_offhook = Done r s' /\ wf s' /\
    ((r = -1 /\ s' = line1_offhook /\
      (truncate_at ";" "3 dt12 ; dial" = "q" \/ truncate_at ";" "3 dt12 ; dial" = "Q")) \/
     (r = 0 /\ truncate_at ";" "3 dt12 ; dial" <> "q"
      /\ truncate_at ";" "3 dt12 ; dial" <> "Q")).
Proof.
  apply (X10_run_command_in_range_never_faults busy_server "3 dt12 ; dial" line1_offhook).
  - reflexivity.
  - intros h. vm_compute. repeat constructor; by eexists.
  - intros _. vm_compute. split; discriminate.
Defined.

(** X11: a line command only concerns the line it names.  For every
    input line whose leading number [n] is 1 to 9, whatever follows the
    number, [run_command] returns 0, leaves every other line exactly as
    it was, and leaves in line [n] the device name [PJSIP/autotest<n>],
    the dial string [PJSIP/01@autotest<n>] and the context [idle]. *)
Theorem X11_line_command_touches_one_line
    (ami : list event -> request -> option ami_response)
    (command : string) (s : session) :
  wf s ->
  (forall h, listable (ami h CoreShowChannels)) ->
  isdigit (deref (truncate_at ";" command)) = true ->
  1 <= atoi (truncate_at ";" command) <= MAX_LINES ->
  exists s',
    run_command ami command s = Done 0 s' /\
    (forall j, 0 <= j -> j <> atoi (truncate_at ";" command) ->
       line_at s' j = line_at s j) /\
    devicename (line_at s' (atoi (truncate_at ";" command)))
      = "PJSIP/autotest" ++ fmt_d (atoi (truncate_at ";" command)) /\
    dialstr (line_at s' (atoi (truncate_at ";" command)))
      = "PJSIP/01@autotest" ++ fmt_d (atoi (truncate_at ";" command)) /\
    dialexten (line_at s' (atoi (truncate_at ";" command))) = "idle".
Proof.
  intros Hwf Hlist Hdigit Hn. unfold run_command. cbv zeta. rewrite Hdigit.
  destruct (Z.eqb_spec (atoi (truncate_at ";" command)) 0) as [Hz|_]; [lia|].
  destruct (line_command_frame ami Hlist (atoi (truncate_at ";" command))
              (ltrim (advance (truncate_at ";" command))) s)
    as (s' & Hrun & _ & Hother & Hdev & Hdial & Hext); [done|done|].
  exists s'. split; [done|]. split; [done|].
  rewrite Hdev, Hdial, Hext.
  remember (atoi (truncate_at ";" command)) as n eqn:Heqn. clear Heqn Hother Hrun.
  each_line n Hn; repeat split; reflexivity.
Qed.

Lemma X11_line_command_touches_one_line_witness :
  exists s',
    run_command busy_server "2 o" line1_offhook = Done 0 s' /\
    (forall j, 0 <= j -> j <> atoi (truncate_at ";" "2 o") ->
       line_at s' j = line_at line1_offhook j) /\
    devicename (line_at s' (atoi (truncate_at ";" "2 o")))
      = "PJSIP/autotest" ++ fmt_d (atoi (truncate_at ";" "2 o")) /\
    dialstr (line_at s' (atoi (truncate_at ";" "2 o")))
      = "PJSIP/01@autotest" ++ fmt_d (atoi (truncate_at ";" "2 o")) /\
    dialexten (line_at s' (atoi (truncate_at ";" "2 o"))) = "idle".
Proof.
  apply (X11_line_command_touches_one_line busy_server "2 o" line1_offhook).
  - reflexivity.
  - intros h. vm_compute. repeat constructor; by eexists.
  - reflexivity.
  - vm_compute. split; discriminate.
Defined.

(** ** The session loop *)

Lemma chars_length (s : string) : length (chars s) = String.length s.
Proof. induction s as [|c s IH]; simpl; [done|]. by rewrite IH. Qed.

Lemma c_str_chars (s : string) :
  forallb (fun c => negb (Ascii.eqb c NUL)) (chars s) = true -> c_str (chars s) = s.
Proof.
  induction s as [|c s IH]; simpl; [done|].
  intros [Hc Hs]%andb_true_iff. apply negb_true_iff in Hc. rewrite Hc.
  by rewrite IH.
Qed.

Section Loop.
Variable ami : list event -> request -> option ami_response.

(** After a reset the buffer and the count in hand do not matter. *)
Lemma session_loop_reset (inp : list input) (buf : list ascii) (left : Z)
    (s : session) :
  session_loop ami inp true buf left s =
  session_loop ami inp false [] 63 (logged s [EvStderr ">"]).
Proof. destruct inp as [|[] inp]; reflexivity. Qed.

Lemma session_loop_reset_any (inp : list input) (buf buf' : list ascii)
    (left left' : Z) (s : session) :
  session_loop ami inp true buf left s = session_loop ami inp true buf' left' s.
Proof. by rewrite !session_loop_reset. Qed.

(** An ordinary character goes into the buffer. *)
Lemma session_loop_char (c : ascii) (inp : list input) (buf : list ascii)
    (left : Z) (s : session) :
  ordinary c = true ->
  session_loop ami (ReadChar c :: inp) false buf left s =
  if left - 1 <=? 1
  then session_loop ami inp true (buf ++ [c]) (left - 1)
         (logged s [EvStderr ("Command too long" ++ nl)])
  else session_loop ami inp false (buf ++ [c]) (left - 1) s.
Proof.
  intros [Hlf Hq]%andb_true_iff.
  apply negb_true_iff in Hlf, Hq.
  simpl. unfold bind at 1. simpl. rewrite Hlf, Hq.
  destruct (left - 1 <=? 1); reflexivity.
Qed.

Lemma session_loop_chars (cs : list ascii) (inp : list input)
    (buf : list ascii) (left : Z) (s : session) :
  forallb ordinary cs = true -> 1 < left - Z.of_nat (length cs) ->
  session_loop ami (map ReadChar cs ++ inp) false buf left s =
  session_loop ami inp false (buf ++ cs) (left - Z.of_nat (length cs)) s.
Proof.
  revert buf left. induction cs as [|c cs IH]; intros buf left Hord Hleft.
  - simpl. rewrite app_nil_r. f_equal. lia.
  - simpl in Hord. apply andb_true_iff in Hord as [Hc Hcs].
    simpl map. rewrite <- app_comm_cons. rewrite session_loop_char by done.
    simpl length in *.
    destruct (Z.leb_spec (left - 1) 1) as [Hle|_]; [lia|].
    rewrite IH by (done || lia).
    rewrite <- app_assoc. simpl. f_equal. lia.
Qed.

(** The newline runs the buffer as a command. *)
Lemma session_loop_line (inp : list input) (buf : list ascii) (left : Z)
    (s : session) :
  session_loop ami (ReadChar LF :: inp) false buf left s =
  (res <- run_command ami (c_str buf) ;;
   if res =? 0 then session_loop ami inp true buf left else ret tt) s.
Proof. reflexivity. Qed.

Lemma session_loop_help (inp : list input) (buf : list ascii) (left : Z)
    (s : session) :
  session_loop ami (ReadChar "?" :: inp) false buf left s =
  session_loop ami inp true buf left
    (logged s [EvStdout help_text; EvStdout nl]).
Proof.
  simpl. unfold bind at 1. simpl. unfold bind, print, emit, logged. simpl.
  by rewrite <- app_assoc.
Qed.

Lemma typable_parts (cmd : string) :
  typable cmd = true ->
  forallb ordinary (chars cmd) = true /\
  forallb (fun c => negb (Ascii.eqb c NUL)) (chars cmd) = true /\
  (String.length cmd <= 61)%nat.
Proof.
  unfold typable. intros [Hlen Hall]%andb_true_iff.
  apply Nat.leb_le in Hlen. split; [|split]; [| |done].
  - induction (chars cmd) as [|c cs IH]; simpl in *; [done|].
    apply andb_true_iff in Hall as [[Hc _]%andb_true_iff Hcs].
    rewrite Hc. by apply IH.
  - induction (chars cmd) as [|c cs IH]; simpl in *; [done|].
    apply andb_true_iff in Hall as [[_ Hc]%andb_true_iff Hcs].
    rewrite Hc. by apply IH.
Qed.

(** A typed line and its newline, from a reset loop. *)
Lemma session_loop_typed_line (cmd : string) (inp : list input)
    (buf : list ascii) (left : Z) (s : session) :
  typable cmd = true ->
  session_loop ami (typed cmd ++ ReadChar LF :: inp) true buf left s =
  (eprint ">" ;;
   res <- run_command ami cmd ;;
   if res =? 0 then session_loop ami inp true [] 0 else ret tt) s.
Proof.
  intros (Hord & Hnul & Hlen)%typable_parts.
  rewrite session_loop_reset. unfold typed.
  rewrite session_loop_chars by (done || rewrite chars_length; lia).
  rewrite session_loop_line. simpl app. rewrite c_str_chars by done.
  unfold bind at 2. unfold eprint at 1, emit at 1.
  fold (logged s [EvStderr ">"]).
  unfold bind.
  destruct (run_command ami cmd (logged s [EvStderr ">"])) as [res s'|f]; [|done].
  destruct (res =? 0); [|done]. apply session_loop_reset_any.
Qed.

Lemma session_loop_script (script : list string) (buf : list ascii) (left : Z)
    (s : session) :
  forallb typable script = true ->
  session_loop ami (feed script) true buf left s = run_script ami script s.
Proof.
  revert buf left s. induction script as [|cmd rest IH]; intros buf left s Hall.
  - reflexivity.
  - simpl in Hall. apply andb_true_iff in Hall as [Hcmd Hrest].
    unfold feed. simpl flat_map. rewrite <- app_assoc. simpl app.
    rewrite session_loop_typed_line by done.
    simpl run_script. unfold bind.
    destruct (eprint ">" s) as [[] s0|f]; [|done].
    destruct (run_command ami cmd s0) as [res s1|f]; [|done].
    destruct (res =? 0); [|done]. by apply IH.
Qed.

End Loop.

(** X12: a question mark prints the help and throws away what was typed
    on the line so far: after up to 61 ordinary characters and a
    question mark, the loop goes on as from an empty buffer, and no
    command has run. *)
Theorem X12_help_discards_partial_line
    (ami : list event -> request -> option ami_response)
    (cs : list ascii) (inp : list input) (buf : list ascii) (left : Z)
    (s : session) :
  forallb ordinary cs = true -> (length cs <= 61)%nat ->
  session_loop ami (map ReadChar cs ++ ReadChar "?" :: inp) true buf left s =
  session_loop ami inp true [] 0
    (logged s [EvStderr ">"; EvStdout help_text; EvStdout nl]).
Proof.
  intros Hord Hlen.
  rewrite session_loop_reset.
  rewrite session_loop_chars by (done || lia).
  rewrite session_loop_help, logged_logged.
  apply session_loop_reset_any.
Qed.

Lemma X12_help_discards_partial_line_witness :
  session_loop busy_server (map ReadChar (chars "1o") ++ ReadChar "?" :: typed ("q" ++ nl))
    true [] 0 initial_session =
  session_loop busy_server (typed ("q" ++ nl)) true [] 0
    (logged initial_session [EvStderr ">"; EvStdout help_text; EvStdout nl]).
Proof.
  apply (X12_help_discards_partial_line busy_server (chars "1o")).
  - reflexivity.
  - simpl. lia.
Defined.

(** X13: the 62nd ordinary character typed without a newline overflows
    the line: the loop prints Command too long, throws the 62 characters
    away and goes on as from an empty buffer; no command has run. *)
Theorem X13_long_line_is_dropped
    (ami : list event -> request -> option ami_response)
    (cs : list ascii) (inp : list input) (buf : list ascii) (left : Z)
    (s : session) :
  forallb ordinary cs = true -> length cs = 62%nat ->
  session_loop ami (map ReadChar cs ++ inp) true buf left s =
  session_loop ami inp true [] 0
    (logged s [EvStderr ">"; EvStderr ("Command too long" ++ nl)]).
Proof.
  intros Hord Hlen.
  rewrite <- (take_drop 61 cs) in Hord |- * at 1.
  rewrite forallb_app in Hord. apply andb_true_iff in Hord as [Hhead Htail].
  assert (Hlen1 : length (take 61 cs) = 61%nat) by (rewrite length_take; lia).
  destruct (drop 61 cs) as [|c [|c' rest]] eqn:Hdrop.
  - apply (f_equal length) in Hdrop. rewrite length_drop in Hdrop. simpl in Hdrop. lia.
  - simpl in Htail. rewrite andb_true_r in Htail.
    rewrite map_app, <- app_assoc. simpl app.
    rewrite session_loop_reset.
    rewrite session_loop_chars by (done || lia).
    rewrite session_loop_char by done.
    rewrite Hlen1. simpl Z.leb. cbv iota.
    rewrite logged_logged. apply session_loop_reset_any.
  - apply (f_equal length) in Hdrop. rewrite length_drop in Hdrop. simpl in Hdrop. lia.
Qed.

Lemma X13_long_line_is_dropped_witness :
  session_loop busy_server (map ReadChar (repeat "o"%char 62) ++ typed ("1o" ++ nl))
    true [] 0 initial_session =
  session_loop busy_server (typed ("1o" ++ nl)) true [] 0
    (logged initial_session [EvStderr ">"; EvStderr ("Command too long" ++ nl)]).
Proof.
  apply (X13_long_line_is_dropped busy_server (repeat "o"%char 62)).
  - reflexivity.
  - reflexivity.
Defined.

(** X14: fed a script, [multidialer] runs the script line by line.  When
    every line has at most 61 characters, none of them a newline, a
    question mark or NUL, the session sets up the terminal, then prompts
    and runs [run_command] on each line in order until one returns a
    value other than 0 or the input ends, then releases the connection,
    restores the terminal and returns 0. *)
Theorem X14_multidialer_runs_script
    (ami : list event -> request -> option ami_response)
    (script : list string) (s : session) :
  forallb typable script = true ->
  multidialer ami (feed script) s =
  (emit EvSignal ;;
   emit (EvTcsetattr ttyterm) ;;
   run_script ami script ;;
   emit EvAmiDisconnect ;;
   emit (EvTcsetattr origterm) ;;
   ret 0) s.
Proof.
  intros Hall. unfold multidialer, bind.
  destruct (emit EvSignal s) as [[] s1|f]; [|done].
  destruct (emit (EvTcsetattr ttyterm) s1) as [[] s2|f]; [|done].
  by rewrite session_loop_script.
Qed.

Lemma X14_multidialer_runs_script_witness :
  multidialer busy_server (feed ["1o"; "1dt47"; "s1"; "q"; "1h"]) initial_session =
  (emit EvSignal ;;
   emit (EvTcsetattr ttyterm) ;;
   run_script busy_server ["1o"; "1dt47"; "s1"; "q"; "1h"] ;;
   emit EvAmiDisconnect ;;
   emit (EvTcsetattr origterm) ;;
   ret 0) initial_session.
Proof.
  apply (X14_multidialer_runs_script busy_server).
  reflexivity.
Defined.

(** The script of X14 evaluated: the line after [q] does not run. *)
Example script_stops_at_quit :
  exists s',
    multidialer busy_server (feed ["1o"; "1dt47"; "s1"; "q"; "1h"]) initial_session
      = Done 0 s' /\
    requests (log s') =
      [originate_req 1; CoreShowChannels;
       PlayDTMF "PJSIP/autotest1-00000001" "4";
       PlayDTMF "PJSIP/autotest1-00000001" "7"] /\
    offhook_at s' 1 = true.
Proof. eexists. split; [vm_compute; reflexivity|]. split; reflexivity. Qed.

(** ** Numbers: [atoi] reads back what [%d] prints *)

Lemma digits_value_uint_acc (d : Decimal.uint) (acc : positive) (rest : string) :
  isdigit (deref rest) = false ->
  digits_value (Z.pos acc) (NilEmpty.string_of_uint d ++ rest)
  = Z.pos (Pos.of_uint_acc d acc).
Proof.
  intros Hrest. revert acc.
  induction d as [|d IH|d IH|d IH|d IH|d IH|d IH|d IH|d IH|d IH|d IH];
    intros acc; simpl;
    [by apply digits_value_stop|..];
    change (isdigit _) with true; cbv iota;
    match goal with
    | |- digits_value ?a _ = Z.pos (Pos.of_uint_acc _ ?p) =>
        replace a with (Z.pos p) by (vm_compute (code _); lia)
    end; apply IH.
Qed.

Lemma digits_value_uint (d : Decimal.uint) (rest : string) :
  isdigit (deref rest) = false ->
  digits_value 0 (NilEmpty.string_of_uint d ++ rest) = Z.of_N (Pos.of_uint d).
Proof.
  intros Hrest.
  induction d as [|d IH|d IH|d IH|d IH|d IH|d IH|d IH|d IH|d IH|d IH]; simpl;
    [by apply digits_value_stop|exact IH|..];
    change (isdigit _) with true; cbv iota;
    match goal with
    | |- digits_value ?a _ = Z.pos (Pos.of_uint_acc _ ?p) =>
        replace a with (Z.pos p) by (vm_compute; reflexivity)
    end; by apply digits_value_uint_acc.
Qed.

Lemma digits_value_zero_uint (d : Decimal.uint) (rest : string) :
  isdigit (deref rest) = false ->
  digits_value 0 (NilZero.string_of_uint d ++ rest) = Z.of_uint d.
Proof.
  intros Hrest. unfold Z.of_uint.
  destruct d; try (by apply (digits_value_uint _ rest)).
  simpl. change (isdigit "0") with true. cbv iota.
  by apply digits_value_stop.
Qed.

Lemma strtol_uint (d : Decimal.uint) (rest : string) :
  strtol (NilZero.string_of_uint d ++ rest)
  = Z.min LONG_MAX (digits_value 0 (NilZero.string_of_uint d ++ rest)).
Proof. destruct d; reflexivity. Qed.

Lemma truncate_at_uint (d : Decimal.uint) (rest : string) :
  truncate_at ";" (NilZero.string_of_uint d ++ rest)
  = NilZero.string_of_uint d ++ truncate_at ";" rest.
Proof.
  assert (Hne : forall d', truncate_at ";" (NilEmpty.string_of_uint d' ++ rest)
                           = NilEmpty.string_of_uint d' ++ truncate_at ";" rest).
  { induction d' as [|d' IH|d' IH|d' IH|d' IH|d' IH|d' IH|d' IH|d' IH|d' IH|d' IH];
      simpl; [done|..]; by rewrite IH. }
  destruct d; try apply Hne. reflexivity.
Qed.

Lemma deref_uint_digit (d : Decimal.uint) (rest : string) :
  isdigit (deref (NilZero.string_of_uint d ++ rest)) = true.
Proof. destruct d; reflexivity. Qed.

Lemma to_int_nonneg (n : Z) :
  0 <= n -> exists d, Z.to_int n = Decimal.Pos d.
Proof. destruct n; [by eexists|by eexists|lia]. Qed.

(** For a number of the range of [int] that is not negative, [atoi]
    reads the decimal numeral back, whatever follows it, as long as that
    does not start with a digit. *)
Lemma atoi_fmt_d (n : Z) (rest : string) :
  0 <= n < 2 ^ 31 -> isdigit (deref rest) = false ->
  atoi (fmt_d n ++ rest) = n.
Proof.
  intros Hn Hrest. unfold atoi, fmt_d.
  destruct (to_int_nonneg n) as [d Hd]; [lia|].
  pose proof (DecimalZ.of_to n) as Hback. rewrite Hd in *. simpl in Hback.
  simpl NilZero.string_of_int.
  rewrite strtol_uint, digits_value_zero_uint, Hback by done.
  unfold LONG_MAX, to_int. rewrite Z.min_r by lia.
  rewrite Z.mod_small by lia. lia.
Qed.

Lemma truncate_at_fmt_d (n : Z) (rest : string) :
  0 <= n ->
  truncate_at ";" (fmt_d n ++ rest) = fmt_d n ++ truncate_at ";" rest.
Proof.
  intros Hn. unfold fmt_d. destruct (to_int_nonneg n Hn) as [d ->].
  apply truncate_at_uint.
Qed.

Lemma deref_fmt_d_digit (n : Z) (rest : string) :
  0 <= n -> isdigit (deref (fmt_d n ++ rest)) = true.
Proof.
  intros Hn. unfold fmt_d. destruct (to_int_nonneg n Hn) as [d ->].
  apply deref_uint_digit.
Qed.

Lemma line_command_out_of_bounds
    (ami : list event -> request -> option ami_response)
    (n : Z) (command : string) (s : session) :
  wf s -> n < 0 \/ MAX_LINES < n ->
  line_command ami n command s = Crash (OutOfBounds n).
Proof.
  intros Hwf Hn. unfold line_command, set_line.
  unfold bind at 1. unfold bind at 1.
  by rewrite get_line_out_of_bounds.
Qed.

(** X15: the line number has no upper bound.  For every number from 10
    up to the largest [int], the decimal numeral of the number followed
    by anything that does not start with a digit makes [run_command]
    write the device name into [lines] at that index, outside the
    array. *)
Theorem X15_line_number_above_nine
    (ami : list event -> request -> option ami_response)
    (n : Z) (rest : string) (s : session) :
  wf s -> MAX_LINES < n < 2 ^ 31 -> isdigit (deref rest) = false ->
  run_command ami (fmt_d n ++ rest) s = Crash (OutOfBounds n).
Proof.
  intros Hwf Hn Hrest. unfold MAX_LINES in Hn. unfold run_command. cbv zeta.
  rewrite truncate_at_fmt_d by lia.
  rewrite deref_fmt_d_digit by lia.
  rewrite atoi_fmt_d by (lia || by apply deref_truncate_not_digit).
  destruct (Z.eqb_spec n 0) as [->|_]; [lia|].
  apply line_command_out_of_bounds; [done|unfold MAX_LINES; lia].
Qed.

Lemma X15_line_number_above_nine_witness :
  run_command busy_server (fmt_d 2147483647 ++ " h") initial_session
  = Crash (OutOfBounds 2147483647).
Proof.
  apply (X15_line_number_above_nine busy_server 2147483647 " h" initial_session).
  - reflexivity.
  - unfold MAX_LINES. lia.
  - reflexivity.
Defined.

Lemma ltrim_fmt_d (n : Z) (rest : string) :
  0 <= n -> ltrim (fmt_d n ++ rest) = fmt_d n ++ rest.
Proof.
  intros Hn. unfold fmt_d. destruct (to_int_nonneg n Hn) as [d ->].
  destruct d; reflexivity.
Qed.

Lemma sleep_argument (n : Z) (ws rest : string) :
  0 <= n < 2 ^ 31 -> all_space ws = true -> isdigit (deref rest) = false ->
  atoi (ltrim (truncate_at ";" (ws ++ fmt_d n ++ rest))) = n.
Proof.
  intros Hn Hws Hrest.
  rewrite truncate_at_spaces, ltrim_spaces by done.
  rewrite truncate_at_fmt_d, ltrim_fmt_d by lia.
  apply atoi_fmt_d; [done|by apply deref_truncate_not_digit].
Qed.

Lemma millisecond_token_cases (m c : ascii) :
  tolower m = "m"%char -> tolower c = "s"%char ->
  (m = "m"%char \/ m = "M"%char) /\ (c = "s"%char \/ c = "S"%char).
Proof.
  intros Hm Hc. split.
  - revert Hm. destruct m as [[] [] [] [] [] [] [] []]; vm_compute;
      intros H; try discriminate H; tauto.
  - revert Hc. destruct c as [[] [] [] [] [] [] [] []]; vm_compute;
      intros H; try discriminate H; tauto.
Qed.

(** X16: the global command [s] followed by optional white space and the
    decimal numeral of a number [n] from 0 to the largest [int] sleeps
    exactly [n] seconds, sends no action and returns 0; what follows the
    numeral is ignored. *)
Theorem X16_sleep_seconds
    (ami : list event -> request -> option ami_response)
    (n : Z) (ws rest : string) (s : session) :
  0 <= n < 2 ^ 31 -> all_space ws = true -> isdigit (deref rest) = false ->
  run_command ami (String "s" (ws ++ fmt_d n ++ rest)) s =
  Done 0 (logged s [EvSleep n]).
Proof.
  intros Hn Hws Hrest. unfold run_command. cbv zeta.
  change (truncate_at ";" (String "s" ?x)) with (String "s" (truncate_at ";" x)).
  change (deref (String "s" ?x)) with "s"%char.
  change (isdigit "s") with false. cbv iota.
  unfold global_command.
  change (deref (String "s" ?x)) with "s"%char.
  change (Ascii.eqb "s" "s") with true. cbv iota zeta.
  change (advance (String "s" ?x)) with x.
  rewrite sleep_argument by done.
  unfold to_uint. rewrite Z.mod_small by lia. reflexivity.
Qed.

Lemma X16_sleep_seconds_witness :
  run_command busy_server (String "s" (" " ++ fmt_d 90 ++ " seconds")) initial_session =
  Done 0 (logged initial_session [EvSleep 90]).
Proof.
  apply (X16_sleep_seconds busy_server 90 " " " seconds" initial_session).
  - lia.
  - reflexivity.
  - reflexivity.
Defined.

(** X17: the global command [ms], in any mix of cases, followed by
    optional white space and the decimal numeral of a number [n] whose
    thousandfold fits an [int], sleeps exactly [n * 1000] microseconds,
    sends no action and returns 0. *)
Theorem X17_sleep_milliseconds
    (ami : list event -> request -> option ami_response)
    (m c : ascii) (n : Z) (ws rest : string) (s : session) :
  tolower m = "m"%char -> tolower c = "s"%char ->
  0 <= n -> n * 1000 < 2 ^ 31 ->
  all_space ws = true -> isdigit (deref rest) = false ->
  run_command ami (String m (String c (ws ++ fmt_d n ++ rest))) s =
  Done 0 (logged s [EvUsleep (n * 1000)]).
Proof.
  intros Hm Hc Hn Hfit Hws Hrest.
  assert (Harg : atoi (ltrim (truncate_at ";" (ws ++ fmt_d n ++ rest))) = n)
    by (apply sleep_argument; (done || lia)).
  assert (Hwrap : to_uint (to_int (n * 1000)) = n * 1000).
  { unfold to_uint, to_int. rewrite (Z.mod_small (n * 1000 + 2 ^ 31)) by lia.
    rewrite Z.mod_small by lia. lia. }
  destruct (millisecond_token_cases m c Hm Hc) as [[-> | ->] [-> | ->]];
    unfold run_command; cbv zeta;
    match goal with
    | |- context [truncate_at ";" (String ?a (String ?b ?x))] =>
        change (truncate_at ";" (String a (String b x)))
          with (String a (String b (truncate_at ";" x)))
    end;
    unfold global_command; simpl deref; simpl advance;
    match goal with
    | |- context [isdigit ?a] => change (isdigit a) with false
    end; cbv iota;
    match goal with
    | |- context [Ascii.eqb ?a "s"] => change (Ascii.eqb a "s") with false
    end; cbv iota;
    match goal with
    | |- context [strncasecmp_eq ?a "ms" 2] =>
        change (strncasecmp_eq a "ms" 2) with true
    end; cbv iota zeta;
    match goal with
    | |- context [advance (advance (String ?a (String ?b ?x)))] =>
        change (advance (advance (String a (String b x)))) with x
    end;
    rewrite Harg, Hwrap; reflexivity.
Qed.

Lemma X17_sleep_milliseconds_witness :
  run_command busy_server (String "M" (String "s" (EmptyString ++ fmt_d 750 ++ EmptyString)))
    initial_session =
  Done 0 (logged initial_session [EvUsleep (750 * 1000)]).
Proof.
  apply (X17_sleep_milliseconds busy_server "M" "s" 750 EmptyString EmptyString
           initial_session).
  - reflexivity.
  - reflexivity.
  - lia.
  - lia.
  - reflexivity.
  - reflexivity.
Defined.

(** X18: a line number written with a leading zero names the line but
    does not reach the verb.  For every line 1 to 9, [0], the digit of
    the line and then anything that does not start with a digit selects
    that line, and the digit itself is then read as the verb: the only
    effect is the message Unknown line command with that digit; no
    action is sent. *)
Theorem X18_leading_zero_line_number
    (ami : list event -> request -> option ami_response)
    (n : Z) (rest : string) (s : session) :
  wf s -> 1 <= n <= MAX_LINES -> isdigit (deref rest) = false ->
  run_command ami (String "0" (line_cmd n rest)) s =
  Done 0 (logged (prepare n s)
            [EvStderr ("Unknown line command '" ++ fmt_c (digit_char n) ++ "'" ++ nl)]).
Proof.
  intros Hwf Hn Hrest. unfold run_command. cbv zeta.
  change (truncate_at ";" (String "0" ?x)) with (String "0" (truncate_at ";" x)).
  rewrite truncate_line_cmd by done.
  change (deref (String "0" ?x)) with "0"%char.
  change (isdigit "0") with true. cbv iota.
  assert (Hatoi : atoi (String "0" (line_cmd n (truncate_at ";" rest))) = n).
  { unfold atoi, strtol, line_cmd.
    pose proof (deref_truncate_not_digit ";" rest Hrest) as Hstop.
    each_line n Hn; simpl; rewrite digits_value_stop by done; reflexivity. }
  rewrite Hatoi.
  destruct (Z.eqb_spec n 0) as [->|_]; [lia|].
  change (advance (String "0" ?x)) with x.
  assert (Hltrim : ltrim (line_cmd n (truncate_at ";" rest))
                   = line_cmd n (truncate_at ";" rest)).
  { unfold line_cmd. simpl. by rewrite isspace_digit_char. }
  rewrite Hltrim, line_command_ok by (done || lia).
  unfold line_switch, line_cmd. cbv zeta.
  change (deref (String ?a ?x)) with a.
  each_line n Hn; reflexivity.
Qed.

Lemma X18_leading_zero_line_number_witness :
  run_command busy_server (String "0" (line_cmd 1 "o")) initial_session =
  Done 0 (logged (prepare 1 initial_session)
            [EvStderr ("Unknown line command '" ++ fmt_c (digit_char 1) ++ "'" ++ nl)]).
Proof.
  apply (X18_leading_zero_line_number busy_server 1 "o" initial_session).
  - reflexivity.
  - unfold MAX_LINES. lia.
  - reflexivity.
Defined.
